(** * ansible_rulebook.collection: locating resources inside installed collections

    A shallow embedding of [src/ansible_rulebook/collection.py].

    - Python [str] is [string]; a character is a code point below 256.
    - The outside world (settings, the [ansible-galaxy] subprocess, the file
      system, the YAML decoder) is a record [World] of functions.
    - The module's mutable state (the [lru_cache] store of [find_collection],
      the subprocess invocations, the logger) is a record [State], threaded
      through a small state-and-exception monad [M].
    - Arguments that the code inspects dynamically ([isinstance], iteration
      over a [str]) are values of [pyarg]. *)

From Stdlib Require Import List String Ascii Bool Arith Lia ZArith.
Import ListNotations.

Set Warnings "-register-all".
Local Open Scope string_scope.
Local Open Scope list_scope.

Infix "+++" := String.append (at level 60, right associativity).

(** ** Python string operations used by the module *)

Module Str.

(** [s.startswith(p)] *)
Definition startswith (s p : string) : bool := String.prefix p s.

(** [s[n:]] *)
Fixpoint drop (n : nat) (s : string) : string :=
  match n, s with
  | O, _ => s
  | S _, EmptyString => EmptyString
  | S n', String _ r => drop n' r
  end.

(** [s.endswith(p)] for a one-character [p]. *)
Fixpoint endswith_char (s : string) (c : ascii) : bool :=
  match s with
  | EmptyString => false
  | String a EmptyString => Ascii.eqb a c
  | String _ r => endswith_char r c
  end.

Definition snoc (s : string) (c : ascii) : string := s +++ String c EmptyString.

(** [s.split(sep)] for a one-character separator: never an empty list. *)
Fixpoint split_from (sep : ascii) (cur s : string) : list string :=
  match s with
  | EmptyString => [cur]
  | String c r =>
      if Ascii.eqb c sep then cur :: split_from sep EmptyString r
      else split_from sep (snoc cur c) r
  end.

Definition split (sep : ascii) (s : string) : list string :=
  split_from sep EmptyString s.

(** [sep.join(parts)] *)
Fixpoint join (sep : string) (parts : list string) : string :=
  match parts with
  | [] => EmptyString
  | [p] => p
  | p :: rest => p +++ sep +++ join sep rest
  end.

(** The line boundaries of [str.splitlines] among the code points below 256:
    LF, CR, VT, FF, FS, GS, RS and NEL. *)
Definition is_linebreak (c : ascii) : bool :=
  let n := nat_of_ascii c in
  Nat.eqb n 10 || Nat.eqb n 13 || Nat.eqb n 11 || Nat.eqb n 12
  || Nat.eqb n 28 || Nat.eqb n 29 || Nat.eqb n 30 || Nat.eqb n 133.

Definition CR : ascii := ascii_of_nat 13.
Definition LF : ascii := ascii_of_nat 10.

(** [s.splitlines()]: a line ends at each boundary (CR LF counts once); what
    follows the last boundary is a line only when it is not empty. *)
Fixpoint splitlines_from (cur s : string) : list string :=
  match s with
  | EmptyString =>
      match cur with EmptyString => [] | _ => [cur] end
  | String c r =>
      if is_linebreak c then
        cur ::
          (match r with
           | String d r' =>
               if Ascii.eqb c CR && Ascii.eqb d LF
               then splitlines_from EmptyString r'
               else splitlines_from EmptyString r
           | EmptyString => splitlines_from EmptyString r
           end)
      else splitlines_from (snoc cur c) r
  end.

Definition splitlines (s : string) : list string :=
  splitlines_from EmptyString s.

(** [needle in s] on two strings. *)
Fixpoint contains (s needle : string) : bool :=
  String.prefix needle s
  || match s with
     | EmptyString => false
     | String _ r => contains r needle
     end.

(** [list(s)]: iterating a string yields its one-character strings. *)
Fixpoint chars (s : string) : list string :=
  match s with
  | EmptyString => []
  | String c r => String c EmptyString :: chars r
  end.

(** Whether the character [c] occurs in [s]. *)
Fixpoint occurs (c : ascii) (s : string) : bool :=
  match s with
  | EmptyString => false
  | String a r => Ascii.eqb a c || occurs c r
  end.

(** The text before and after the last [sep] of [s], if there is one. *)
Fixpoint rsplit_once (sep : ascii) (s : string) : option (string * string) :=
  match s with
  | EmptyString => None
  | String c r =>
      match rsplit_once sep r with
      | Some (head, tail) => Some (String c head, tail)
      | None => if Ascii.eqb c sep then Some (EmptyString, r) else None
      end
  end.

(** [s.rpartition(sep)] for a one-character separator: head, separator and
    tail around the last occurrence; two empty strings and [s] without one. *)
Definition rpartition (sep : ascii) (s : string) : string * string * string :=
  match rsplit_once sep s with
  | Some (head, tail) => (head, String sep EmptyString, tail)
  | None => (EmptyString, EmptyString, s)
  end.

End Str.

(** ** [os.path.join] (posixpath) *)

Module Posix.

Definition sep : string := "/".

(** One round of the loop of [posixpath.join]. *)
Definition join_step (path b : string) : string :=
  if Str.startswith b sep then b
  else if String.eqb path "" || Str.endswith_char path "/"%char then path +++ b
  else path +++ sep +++ b.

Definition join (a : string) (p : list string) : string :=
  fold_left join_step p a.

End Posix.

(** ** Decoded YAML documents *)

(** What [yaml.safe_load] yields, as far as [is_deprecated] looks at it.
    Mapping keys that are not strings never compare equal to the [str] keys
    the module looks up, so mappings are kept with their string keys only.
    Floats and timestamps are left out: under the operations used here they
    behave like integers (no membership test, no [get]). *)
Inductive yaml : Type :=
| YNull
| YBool (b : bool)
| YInt (z : Z)
| YStr (s : string)
| YSeq (items : list yaml)
| YMap (entries : list (string * yaml)).

(** ** Exceptions and logging *)

Inductive exn : Type :=
| Exception (msg : string)
| FileNotFoundError (msg : string)
| RulebookNotFoundException (msg : string)
| UnboundLocalError (variable : string)
| TypeError
| AttributeError
| OSError
| UnicodeDecodeError
| YAMLError
| KeyError (key : string).

Inductive log_record : Type :=
| LogError (fmt output : string)
| LogWarning (msg : yaml)
| Banner (title text : string).

(** ** The world outside the module *)

(** Outcome of [subprocess.check_output]. *)
Inductive proc_result : Type :=
| Completed (decoded : option string)
    (* exit status 0; the captured bytes as [output.decode()] gives them,
       [None] when they are not valid UTF-8 *)
| CalledProcessError (output : string)
| SpawnFailed.

Record World : Type := {
  ansible_galaxy_path : option string;
    (* settings.ansible_galaxy_path *)
  check_output : string -> string -> proc_result;
    (* [exe, "collection", "list", name] with ANSIBLE_LOCAL_TEMP=/tmp *)
  path_exists : string -> bool;
    (* os.path.exists *)
  read_file : string -> option string;
    (* open(path) and read, [None] on an OSError *)
  safe_load : string -> option yaml;
    (* yaml.safe_load, [None] on a YAMLError *)
  has_vaulted_str : string -> bool;
    (* ansible_rulebook.vault.has_vaulted_str *)
  py_str : yaml -> string
    (* str() of a decoded value, as an f-string formats it *)
}.

(** ** Module state and the monad *)

Definition cache_t : Type := list (string * option string).

Record State : Type := {
  cache : cache_t;
    (* store of @lru_cache on find_collection, most recently used first *)
  lister_calls : list string;
    (* names handed to the subprocess, newest first *)
  lookups : list string;
    (* calls of find_collection, newest first *)
  log : list log_record
    (* logger and terminal records, newest first *)
}.

Inductive outcome (A : Type) : Type :=
| Return (a : A)
| Raise (e : exn).
Arguments Return {A} a.
Arguments Raise {A} e.

Definition M (A : Type) : Type := State -> outcome A * State.

Definition ret {A} (a : A) : M A := fun st => (Return a, st).
Definition raise {A} (e : exn) : M A := fun st => (Raise e, st).
Definition bind {A B} (m : M A) (k : A -> M B) : M B :=
  fun st =>
    match m st with
    | (Return a, st') => k a st'
    | (Raise e, st') => (Raise e, st')
    end.

Notation "x <- m ;; k" := (bind m (fun x => k))
  (at level 61, m at next level, right associativity).
Notation "m ;;; k" := (bind m (fun _ => k))
  (at level 61, right associativity).

Definition set_cache (c : cache_t) (st : State) : State :=
  {| cache := c; lister_calls := lister_calls st;
     lookups := lookups st; log := log st |}.

Definition record_lookup (name : string) (st : State) : State :=
  {| cache := cache st; lister_calls := lister_calls st;
     lookups := name :: lookups st; log := log st |}.

Definition record_lister (name : string) (st : State) : State :=
  {| cache := cache st; lister_calls := name :: lister_calls st;
     lookups := lookups st; log := log st |}.

Definition emit (r : log_record) : M unit :=
  fun st =>
    (Return tt,
     {| cache := cache st; lister_calls := lister_calls st;
        lookups := lookups st; log := r :: log st |}).

Definition empty_state : State :=
  {| cache := []; lister_calls := []; lookups := []; log := [] |}.

(** ** [functools.lru_cache] with its default [maxsize] *)

Definition maxsize : nat := 128.

Fixpoint cache_get (name : string) (c : cache_t) : option (option string) :=
  match c with
  | [] => None
  | (k, v) :: rest => if String.eqb k name then Some v else cache_get name rest
  end.

Fixpoint cache_remove (name : string) (c : cache_t) : cache_t :=
  match c with
  | [] => []
  | (k, v) :: rest =>
      if String.eqb k name then rest else (k, v) :: cache_remove name rest
  end.

(** A hit moves the entry to the most recently used end. *)
Definition cache_touch (name : string) (v : option string) (c : cache_t) : cache_t :=
  (name, v) :: cache_remove name c.

(** A miss stores the new result; a full store first drops its least recently
    used entry. *)
Definition cache_put (name : string) (v : option string) (c : cache_t) : cache_t :=
  (name, v) :: (if Nat.leb maxsize (List.length c) then removelast c else c).

(** The decorator: results are stored by argument; an exception of the wrapped
    function passes through and stores nothing. *)
Definition lru_cache (f : string -> M (option string)) (name : string)
  : M (option string) :=
  fun st0 =>
    let st := record_lookup name st0 in
    match cache_get name (cache st) with
    | Some v => (Return v, set_cache (cache_touch name v (cache st)) st)
    | None =>
        match f name st with
        | (Return v, st') => (Return v, set_cache (cache_put name v (cache st')) st')
        | (Raise e, st') => (Raise e, st')
        end
    end.

(** ** [split_collection_name] *)

Definition split_collection_name (collection_resource : string)
  : string * string :=
  let '(collection, _, resource) :=
    Str.rpartition "."%char collection_resource in
  (collection, resource).

(** ** [find_collection] *)

Definition comment_marker : string := "# ".

(** The [for line in output.splitlines()] loop. *)
Fixpoint scan_lines (W : World) (parts : list string) (lines : list string)
  : option string :=
  match lines with
  | [] => None
  | line :: rest =>
      if Str.startswith line comment_marker then
        let location := Str.drop 2 line in
        let location := Posix.join location parts in
        if path_exists W location then Some location
        else scan_lines W parts rest
      else scan_lines W parts rest
  end.

(** The function under the decorator. *)
Definition find_collection_wrapped (W : World) (name : string)
  : M (option string) :=
  match ansible_galaxy_path W with
  | None => raise (Exception "ansible-galaxy is not installed")
  | Some exe =>
      fun st =>
        let st := record_lister name st in
        match check_output W exe name with
        | SpawnFailed => (Raise OSError, st)
        | CalledProcessError out =>
            (emit (LogError "Error listing collections: %s" out) ;;; ret None) st
        | Completed None => (Raise UnicodeDecodeError, st)
        | Completed (Some output) =>
            let parts := Str.split "."%char name in
            (Return (scan_lines W parts (Str.splitlines output)), st)
        end
  end.

Definition find_collection (W : World) : string -> M (option string) :=
  lru_cache (find_collection_wrapped W).

(** ** Dynamically typed arguments *)

(** The candidate sub-paths and extensions arrive either as one [str] or as a
    [list] of [str]. *)
Inductive pyarg : Type :=
| PStr (s : string)
| PList (l : list string).

(** [if not isinstance(extensions, list): extensions = [extensions]] *)
Definition normalize (extensions : pyarg) : list string :=
  match extensions with
  | PList l => l
  | PStr s => [s]
  end.

(** What a [for] loop over the argument visits. *)
Definition iterate (a : pyarg) : list string :=
  match a with
  | PList l => l
  | PStr s => Str.chars s
  end.

(** [os.path.join(find_collection(collection), ...)]: joining [None] is a
    [TypeError]. *)
Definition join_located (dir : option string) (p : list string) : M string :=
  match dir with
  | Some d => ret (Posix.join d p)
  | None => raise TypeError
  end.

(** ** Constants *)

Definition EDA_PATH_PREFIX : string := "extensions/eda".
Definition EDA_EXTENSIONS : string := "extensions.eda".
Definition EVENT_SOURCE_OBJ_TYPE : string := "event_source".
Definition EVENT_SOUURCE_FILTER_OBJ_TYPE : string := "event_filter".

Definition EDA_FILTER_PATHS : list string :=
  [ EDA_PATH_PREFIX +++ "/plugins/event_filter";
    EDA_PATH_PREFIX +++ "/plugins/event_filters";
    "plugins/event_filter" ].

Definition EDA_SOURCE_PATHS : list string :=
  [ EDA_PATH_PREFIX +++ "/plugins/event_source";
    EDA_PATH_PREFIX +++ "/plugins/event_sources";
    "plugins/event_source" ].

Definition EDA_PLAYBOOKS_PATHS : list string := ["."; "playbooks"].
Definition EDA_YAML_EXTENSIONS : list string := [".yml"; ".yaml"].

Definition RULEBOOK_PATHS : list string :=
  [ EDA_PATH_PREFIX +++ "/rulebooks"; "rulebooks" ].

(** ** [has_object] *)

Fixpoint has_object_extensions (W : World) (collection name object_type : string)
    (extensions : list string) : M bool :=
  match extensions with
  | [] => ret false
  | extension :: rest =>
      dir <- find_collection W collection ;;
      base <- join_located dir [object_type; name] ;;
      if path_exists W (base +++ extension) then ret true
      else has_object_extensions W collection name object_type rest
  end.

Fixpoint has_object_types (W : World) (collection name : string)
    (object_types extensions : list string) : M bool :=
  match object_types with
  | [] => ret false
  | object_type :: rest =>
      hit <- has_object_extensions W collection name object_type extensions ;;
      if hit then ret true
      else has_object_types W collection name rest extensions
  end.

Definition has_object (W : World) (collection name : string)
    (object_types extensions : pyarg) : M bool :=
  dir <- find_collection W collection ;;
  match dir with
  | None => ret false
  | Some _ =>
      has_object_types W collection name (iterate object_types)
        (normalize extensions)
  end.

(** ** [find_object] *)

(** What [find_object] returns: [False] or a path. *)
Inductive found : Type :=
| PyFalse
| PyPath (location : string).

(** The two loop variables that the final [raise] reads; [None] is a local
    that was never bound. *)
Record locals : Type := {
  object_type_var : option string;
  location_var : option string
}.

(** The inner loop: [inl] is [return location], [inr] the local [location]
    once the loop is exhausted. *)
Fixpoint find_object_extensions (W : World) (collection name object_type : string)
    (extensions : list string) (location : option string)
  : M (string + option string) :=
  match extensions with
  | [] => ret (inr location)
  | extension :: rest =>
      dir <- find_collection W collection ;;
      base <- join_located dir [object_type; name] ;;
      let location := base +++ extension in
      if path_exists W location then ret (inl location)
      else find_object_extensions W collection name object_type rest (Some location)
  end.

Fixpoint find_object_types (W : World) (collection name : string)
    (object_types extensions : list string) (l : locals)
  : M (string + locals) :=
  match object_types with
  | [] => ret (inr l)
  | object_type :: rest =>
      r <- find_object_extensions W collection name object_type extensions
             (location_var l) ;;
      match r with
      | inl location => ret (inl location)
      | inr location =>
          find_object_types W collection name rest extensions
            {| object_type_var := Some object_type; location_var := location |}
      end
  end.

Definition not_found_message (object_type name collection location : string)
  : string :=
  "Cannot find " +++ object_type +++ " " +++ name +++ " in " +++ collection
  +++ " at " +++ location.

(** The final [raise]: its f-string reads [object_type], then [location];
    reading a local that was never bound raises instead. *)
Definition not_found_exn (name collection : string) (l : locals) : exn :=
  match object_type_var l with
  | None => UnboundLocalError "object_type"
  | Some object_type =>
      match location_var l with
      | None => UnboundLocalError "location"
      | Some location =>
          FileNotFoundError
            (not_found_message object_type name collection location)
      end
  end.

Definition find_object (W : World) (collection name : string)
    (object_types extensions : pyarg) : M found :=
  dir <- find_collection W collection ;;
  match dir with
  | None => ret PyFalse
  | Some _ =>
      r <- find_object_types W collection name (iterate object_types)
             (normalize extensions)
             {| object_type_var := None; location_var := None |} ;;
      match r with
      | inl location => ret (PyPath location)
      | inr l => raise (not_found_exn name collection l)
      end
  end.

(** ** The named conveniences *)

Definition has_rulebook (W : World) (collection rulebook : string) : M bool :=
  has_object W collection rulebook (PList RULEBOOK_PATHS) (PStr ".yml").

Definition load_rulebook (W : World) (collection rulebook : string)
  : M (bool * yaml) :=
  location <- find_object W collection rulebook (PList RULEBOOK_PATHS)
                (PStr ".yml") ;;
  let missing : M (bool * yaml) :=
    raise (RulebookNotFoundException ("Cannot find collection " +++ collection)) in
  match location with
  | PyFalse => missing
  | PyPath p =>
      if String.eqb p "" then missing
      else
        match read_file W p with
        | None => raise OSError
        | Some raw_data =>
            emit (Banner "collection" ("Loading rulebook from " +++ p)) ;;;
            let vaulted := has_vaulted_str W raw_data in
            match safe_load W raw_data with
            | None => raise YAMLError
            | Some doc => ret (vaulted, doc)
            end
        end
  end.

Definition has_source (W : World) (collection source : string) : M bool :=
  has_object W collection source (PList EDA_SOURCE_PATHS) (PStr ".py").

Definition find_source (W : World) (collection source : string) : M found :=
  find_object W collection source (PList EDA_SOURCE_PATHS) (PStr ".py").

Definition has_source_filter (W : World) (collection source_filter : string)
  : M bool :=
  has_object W collection source_filter (PList EDA_FILTER_PATHS) (PStr ".py").

Definition find_source_filter (W : World) (collection source_filter : string)
  : M found :=
  find_object W collection source_filter (PList EDA_FILTER_PATHS) (PStr ".py").

Definition has_playbook (W : World) (collection playbook : string) : M bool :=
  has_object W collection playbook (PList EDA_PLAYBOOKS_PATHS)
    (PList EDA_YAML_EXTENSIONS).

Definition find_playbook (W : World) (collection playbook : string) : M found :=
  find_object W collection playbook (PList EDA_PLAYBOOKS_PATHS)
    (PList EDA_YAML_EXTENSIONS).

(** ** Operations of Python on decoded values *)

Module Py.

Fixpoint lookup (key : string) (entries : list (string * yaml)) : option yaml :=
  match entries with
  | [] => None
  | (k, v) :: rest => if String.eqb k key then Some v else lookup key rest
  end.

Definition is_str (key : string) (v : yaml) : bool :=
  match v with
  | YStr s => String.eqb s key
  | _ => false
  end.

(** [key in v] for a [str] key. *)
Definition contains (key : string) (v : yaml) : M bool :=
  match v with
  | YMap entries =>
      ret (match lookup key entries with Some _ => true | None => false end)
  | YStr s => ret (Str.contains s key)
  | YSeq items => ret (existsb (is_str key) items)
  | YNull | YBool _ | YInt _ => raise TypeError
  end.

(** [v[key]] for a [str] key. *)
Definition getitem (key : string) (v : yaml) : M yaml :=
  match v with
  | YMap entries =>
      match lookup key entries with
      | Some x => ret x
      | None => raise (KeyError key)
      end
  | _ => raise TypeError
  end.

(** [v.get(key, default)]: only a mapping has the method. *)
Definition get (key : string) (default : yaml) (v : yaml) : M yaml :=
  match v with
  | YMap entries =>
      ret (match lookup key entries with Some x => x | None => default end)
  | _ => raise AttributeError
  end.

(** Truth value of a decoded value. A mapping is judged by its string keys,
    the only ones kept: one whose keys are all of another type counts as
    empty here. *)
Definition truthy (v : yaml) : bool :=
  match v with
  | YNull => false
  | YBool b => b
  | YInt z => negb (Z.eqb z 0)
  | YStr s => negb (String.eqb s "")
  | YSeq items => match items with [] => false | _ => true end
  | YMap entries => match entries with [] => false | _ => true end
  end.

(** [msg += s] for a [str] [s]: concatenation on a [str], [extend] with the
    characters on a [list], a [TypeError] otherwise. *)
Definition iadd_str (msg : yaml) (s : string) : M yaml :=
  match msg with
  | YStr m => ret (YStr (m +++ s))
  | YSeq items => ret (YSeq (items ++ map YStr (Str.chars s)))
  | _ => raise TypeError
  end.

End Py.

(** ** [is_deprecated] *)

(** [with open(runtime_yml) as file: data = yaml.safe_load(file)] *)
Definition load_yaml (W : World) (path : string) : M yaml :=
  match read_file W path with
  | None => raise OSError
  | Some text =>
      match safe_load W text with
      | None => raise YAMLError
      | Some data => ret data
      end
  end.

Definition routing_key (obj_type : string) : string :=
  EDA_EXTENSIONS +++ ".plugins." +++ obj_type.

(** The result pair; Python's [None] is [YNull]. *)
Definition not_deprecated : bool * yaml := (false, YNull).

Definition is_deprecated (W : World) (name obj_type : string) : M (bool * yaml) :=
  let parts := Str.split "."%char name in
  if Nat.ltb (List.length parts) 2 then ret not_deprecated
  else
    let collection_name := Str.join "." (removelast parts) in
    path <- find_collection W collection_name ;;
    match path with
    | None => ret not_deprecated
    | Some path =>
        let runtime_yml := Posix.join path ["meta"; "runtime.yml"] in
        if path_exists W runtime_yml then
          data <- load_yaml W runtime_yml ;;
          has_routing <- Py.contains "plugin_routing" data ;;
          if has_routing then
            routing <- Py.getitem "plugin_routing" data ;;
            deprecated_objs <- Py.get (routing_key obj_type) (YMap []) routing ;;
            deprecated_item <- Py.get name (YMap []) deprecated_objs ;;
            has_redirect <- Py.contains "redirect" deprecated_item ;;
            if has_redirect then
              deprecation_details <-
                Py.get "deprecation" (YMap []) deprecated_item ;;
              warning_text <- Py.get "warning_text" (YStr "") deprecation_details ;;
              removal_version <- Py.get "removal_version" YNull deprecation_details ;;
              msg <- (if Py.truthy removal_version
                      then Py.iadd_str warning_text
                             (" It will be removed in version "
                              +++ py_str W removal_version +++ ".")
                      else ret warning_text) ;;
              emit (LogWarning msg) ;;;
              redirect <- Py.getitem "redirect" deprecated_item ;;
              ret (true, redirect)
            else ret not_deprecated
          else ret not_deprecated
        else ret not_deprecated
    end.

(** ** Sequences of Locator calls *)

(** One call of [find_collection], made in a world of its own; what it
    returns or raises is dropped, its effect on the state kept. *)
Definition locate_step (st : State) (call : World * string) : State :=
  snd (find_collection (fst call) (snd call) st).

Definition locate_all (calls : list (World * string)) (st : State) : State :=
  fold_left locate_step calls st.

(** ** A small installation to run the definitions on *)

Module Demo.

Definition base : string := "/usr/share/ansible/collections/ansible_collections".

(** What [ansible-galaxy collection list] prints for an installed name. *)
Definition listing (name : string) : string :=
  String Str.LF ("# " +++ base +++ String Str.LF
    ("Collection  Version" +++ String Str.LF
    ("----------- -------" +++ String Str.LF
    (name +++ " 1.4.7" +++ String Str.LF EmptyString)))).

(** [meta/runtime.yml] of [ansible.eda], as text and decoded. *)
Definition runtime_text : string :=
  "{plugin_routing: {extensions.eda.plugins.event_filter: "
  +++ "{ansible.eda.json_filter: {redirect: eda.builtin.json_filter, "
  +++ "deprecation: {warning_text: Use eda.builtin.json_filter, "
  +++ "removal_version: 3.0.0}}}}}".

Definition runtime_yml : yaml :=
  YMap [("plugin_routing",
    YMap [("extensions.eda.plugins.event_filter",
      YMap [("ansible.eda.json_filter",
        YMap [("redirect", YStr "eda.builtin.json_filter");
              ("deprecation",
               YMap [("warning_text", YStr "Use eda.builtin.json_filter");
                     ("removal_version", YStr "3.0.0")])])])])].

Definition files : list string :=
  [ base +++ "/ansible/eda";
    base +++ "/ansible/eda/meta/runtime.yml";
    base +++ "/ansible/eda/extensions/eda/rulebooks/hello_events.yml";
    base +++ "/ansible/eda/rulebooks/hello_events.yml";
    base +++ "/ansible/eda/extensions/eda/plugins/event_source/range.py";
    base +++ "/ansible/eda/playbooks/hello.yml";
    base +++ "/community/general" ].

Definition mem (p : string) (l : list string) : bool :=
  existsb (String.eqb p) l.

Definition render (v : yaml) : string :=
  match v with YStr s => s | _ => "" end.

(** [ansible.eda] and [community.general] are installed; any other name makes
    the lister exit with a non-zero status. *)
Definition world : World :=
  {| ansible_galaxy_path := Some "/usr/bin/ansible-galaxy";
     check_output := fun _ name =>
       if mem name ["ansible.eda"; "community.general"]
       then Completed (Some (listing name))
       else CalledProcessError "ERROR! - None of the provided paths were usable.";
     path_exists := fun p => mem p files;
     read_file := fun p =>
       if String.eqb p (base +++ "/ansible/eda/meta/runtime.yml")
       then Some runtime_text
       else if mem p files then Some "[]" else None;
     safe_load := fun text =>
       if String.eqb text runtime_text then Some runtime_yml
       else if String.eqb text "[]" then Some (YSeq [])
       else None;
     has_vaulted_str := fun _ => false;
     py_str := render |}.

(** The same installation with [settings.ansible_galaxy_path] unset. *)
Definition unconfigured : World :=
  {| ansible_galaxy_path := None;
     check_output := check_output world;
     path_exists := path_exists world;
     read_file := read_file world;
     safe_load := safe_load world;
     has_vaulted_str := has_vaulted_str world;
     py_str := py_str world |}.

(** The same installation with an empty [meta/runtime.yml], which
    [yaml.safe_load] decodes to [None]. *)
Definition blank_runtime : World :=
  {| ansible_galaxy_path := ansible_galaxy_path world;
     check_output := check_output world;
     path_exists := path_exists world;
     read_file := fun p =>
       if String.eqb p (base +++ "/ansible/eda/meta/runtime.yml")
       then Some "" else read_file world p;
     safe_load := fun text =>
       if String.eqb text "" then Some YNull else safe_load world text;
     has_vaulted_str := has_vaulted_str world;
     py_str := py_str world |}.

(** Every name is installed under [base] and every path exists. *)
Definition crowded : World :=
  {| ansible_galaxy_path := Some "/usr/bin/ansible-galaxy";
     check_output := fun _ name => Completed (Some (listing name));
     path_exists := fun _ => true;
     read_file := fun _ => None;
     safe_load := fun _ => None;
     has_vaulted_str := fun _ => false;
     py_str := render |}.

(** [n] distinct collection names [ns.x], [ns.xx], ... *)
Fixpoint xs (n : nat) : string :=
  match n with
  | O => EmptyString
  | S k => String "x" (xs k)
  end.

Definition names (n : nat) : list string :=
  map (fun k => "ns." +++ xs (S k)) (seq 0 n).

(** 128 lookups of distinct names. *)
Definition many_calls : list (World * string) :=
  map (pair crowded) (names 128).

(** A few lookups, in worlds that differ. *)
Definition few_calls : list (World * string) :=
  [ (world, "community.general"); (world, "missing.eda");
    (unconfigured, "ns.other"); (world, "community.general") ].

(** The state once [ansible.eda] was located from a fresh start. *)
Definition located (W : World) : State :=
  snd (find_collection W "ansible.eda" empty_state).


(** A listing whose only marked base is [base]. *)
Definition one_base : string := "# " +++ base.

(** [meta/runtime.yml] names a redirect for [ansible.eda.json_filter]. *)
Definition json_filter_entry : list (string * yaml) :=
  [("redirect", YStr "eda.builtin.json_filter");
   ("deprecation",
    YMap [("warning_text", YStr "Use eda.builtin.json_filter");
          ("removal_version", YStr "3.0.0")])].

End Demo.

(** ** Definitions the statements are written with *)

(** The paths [find_object] and [has_object] probe for a collection found at
    [dir]: sub-paths outermost, extensions innermost. *)
Definition candidates (dir name : string) (object_types extensions : list string)
  : list string :=
  flat_map
    (fun object_type =>
       map (fun extension => Posix.join dir [object_type; name] +++ extension)
         extensions)
    object_types.

(** The value a loop variable holds after a loop over [l] when it held [v]
    before: each round assigns it. *)
Definition last_bound {A} (l : list A) (v : option A) : option A :=
  fold_left (fun _ x => Some x) l v.

(** The locals of [find_object] after both loops ran to their end. *)
Definition final_locals (dir name : string) (object_types extensions : list string)
  : locals :=
  {| object_type_var := last_bound object_types None;
     location_var :=
       last_bound (candidates dir name object_types extensions) None |}.

(** The base directories [find_collection] takes from a listing: its lines
    that start with the comment marker, in output order, each without the
    marker. *)
Definition marked_bases (output : string) : list string :=
  map (Str.drop 2)
    (filter (fun line => Str.startswith line comment_marker)
       (Str.splitlines output)).

(** A path-safe segment: not empty and free of the separator. *)
Fixpoint no_sep (s : string) : bool :=
  match s with
  | EmptyString => true
  | String c r => negb (Ascii.eqb c "/"%char) && no_sep r
  end.

Definition path_safe (segment : string) : bool :=
  negb (String.eqb segment "") && no_sep segment.

(** [base/seg1/seg2/...], the segments as nested subdirectories of [base]. *)
Fixpoint nested (base : string) (segments : list string) : string :=
  match segments with
  | [] => base
  | segment :: rest => nested (base +++ "/" +++ segment) rest
  end.







(** The collection a fully qualified plugin name belongs to. *)
Definition owner (name : string) : string :=
  Str.join "." (removelast (Str.split "."%char name)).

Definition runtime_path (dir : string) : string :=
  Posix.join dir ["meta"; "runtime.yml"].

(** The lookups of [is_deprecated] that miss, given what the Locator
    answered for the owning collection. *)
Inductive lookup_misses (W : World) (name obj_type : string)
  : option string -> Prop :=
| miss_collection :
    lookup_misses W name obj_type None
| miss_file dir :
    path_exists W (runtime_path dir) = false ->
    lookup_misses W name obj_type (Some dir)
| miss_plugin_routing dir text data :
    path_exists W (runtime_path dir) = true ->
    read_file W (runtime_path dir) = Some text ->
    safe_load W text = Some (YMap data) ->
    Py.lookup "plugin_routing" data = None ->
    lookup_misses W name obj_type (Some dir)
| miss_kind dir text data routing :
    path_exists W (runtime_path dir) = true ->
    read_file W (runtime_path dir) = Some text ->
    safe_load W text = Some (YMap data) ->
    Py.lookup "plugin_routing" data = Some (YMap routing) ->
    Py.lookup (routing_key obj_type) routing = None ->
    lookup_misses W name obj_type (Some dir)
| miss_name dir text data routing objs :
    path_exists W (runtime_path dir) = true ->
    read_file W (runtime_path dir) = Some text ->
    safe_load W text = Some (YMap data) ->
    Py.lookup "plugin_routing" data = Some (YMap routing) ->
    Py.lookup (routing_key obj_type) routing = Some (YMap objs) ->
    Py.lookup name objs = None ->
    lookup_misses W name obj_type (Some dir)
| miss_redirect dir text data routing objs item :
    path_exists W (runtime_path dir) = true ->
    read_file W (runtime_path dir) = Some text ->
    safe_load W text = Some (YMap data) ->
    Py.lookup "plugin_routing" data = Some (YMap routing) ->
    Py.lookup (routing_key obj_type) routing = Some (YMap objs) ->
    Py.lookup name objs = Some (YMap item) ->
    Py.lookup "redirect" item = None ->
    lookup_misses W name obj_type (Some dir).

(** The names other than [name] among [calls], each once. *)
Definition other_names (name : string) (calls : list (World * string))
  : list string :=
  nodup string_dec
    (filter (fun n => negb (String.eqb n name)) (map snd calls)).

(** The names a store holds, most recently used first. *)
Definition keys (c : cache_t) : list string := map fst c.

(** After [name] was located with result [r] and [calls] were made since, the
    store still holds that entry, behind entries for distinct names that all
    occur among [calls]. *)
Definition retained (name : string) (r : option string)
    (calls : list (World * string)) (st : State) : Prop :=
  exists pre post,
    cache st = pre ++ (name, r) :: post
    /\ NoDup (keys pre)
    /\ incl (keys pre) (other_names name calls).

(** The store respects its bound and holds each name once. *)
Definition store_ok (st : State) : Prop :=
  List.length (cache st) <= maxsize /\ NoDup (keys (cache st)).

(** The state with one more log record. *)
Definition logged (r : log_record) (st : State) : State :=
  {| cache := cache st; lister_calls := lister_calls st;
     lookups := lookups st; log := r :: log st |}.

(** Two states that differ at most in the record of Locator calls. *)
Definition quiet (st st' : State) : Prop :=
  cache st' = cache st /\ lister_calls st' = lister_calls st
  /\ log st' = log st.

(** A sub-path that [os.path.join] keeps as it is between two others: not
    empty, not absolute, no trailing separator. *)
Definition inner_part (s : string) : bool :=
  negb (String.eqb s "") && negb (Str.startswith s Posix.sep)
  && negb (Str.endswith_char s "/"%char).

(** A directory to join under: not empty, no trailing separator. *)
Definition open_dir (s : string) : bool :=
  negb (String.eqb s "") && negb (Str.endswith_char s "/"%char).

(** The routing entry of [name] for the kind [obj_type] in the
    [meta/runtime.yml] of the collection at [dir], when the file exists,
    decodes, and every level down to the entry is a mapping. *)
Definition routing_entry (W : World) (dir name obj_type : string)
  : option (list (string * yaml)) :=
  if path_exists W (runtime_path dir) then
    match read_file W (runtime_path dir) with
    | Some text =>
        match safe_load W text with
        | Some (YMap data) =>
            match Py.lookup "plugin_routing" data with
            | Some (YMap routing) =>
                match Py.lookup (routing_key obj_type) routing with
                | Some (YMap objs) =>
                    match Py.lookup name objs with
                    | Some (YMap item) => Some item
                    | _ => None
                    end
                | _ => None
                end
            | _ => None
            end
        | _ => None
        end
    | None => None
    end
  else None.

(** [d.get(key, default)] on the entries of a mapping. *)
Definition get_or (key : string) (default : yaml) (entries : list (string * yaml))
  : yaml :=
  match Py.lookup key entries with
  | Some v => v
  | None => default
  end.

(** A decoded value that is not a mapping. *)
Definition not_mapping (v : yaml) : bool :=
  match v with
  | YMap _ => false
  | _ => true
  end.

(** * Properties *)

(** ** List facts *)

Section ListFacts.

Context {A : Type}.

Lemma find_app (p : A -> bool) (l1 l2 : list A) :
  find p (l1 ++ l2) =
  match find p l1 with Some x => Some x | None => find p l2 end.
Proof.
  induction l1 as [|a l1 IH]; cbn; [reflexivity|].
  destruct (p a); [reflexivity|exact IH].
Qed.

Lemma find_none_iff (p : A -> bool) (l : list A) :
  find p l = None <-> Forall (fun x => p x = false) l.
Proof.
  induction l as [|a l IH]; cbn.
  - split; [constructor|reflexivity].
  - destruct (p a) eqn:E.
    + split; [discriminate|]. intros H. inversion H; congruence.
    + rewrite IH. split; [now constructor|]. intros H. now inversion H.
Qed.

Lemma find_first (p : A -> bool) (pre post : list A) (x : A) :
  Forall (fun y => p y = false) pre -> p x = true ->
  find p (pre ++ x :: post) = Some x.
Proof.
  intros Hpre Hx. rewrite find_app.
  apply find_none_iff in Hpre. rewrite Hpre. cbn. now rewrite Hx.
Qed.

Lemma last_bound_app (l1 l2 : list A) (v : option A) :
  last_bound (l1 ++ l2) v = last_bound l2 (last_bound l1 v).
Proof. apply fold_left_app. Qed.

Lemma last_bound_cons (a : A) (l : list A) (v : option A) :
  last_bound (a :: l) v = last_bound l (Some a).
Proof. reflexivity. Qed.

Lemma last_bound_last (l : list A) (v : option A) (d : A) :
  l <> [] -> last_bound l v = Some (last l d).
Proof.
  revert v. induction l as [|a l IH]; intros v Hne; [congruence|].
  rewrite last_bound_cons. destruct l as [|b l]; [reflexivity|].
  rewrite IH by discriminate. reflexivity.
Qed.

End ListFacts.

Lemma candidates_cons dir name object_type object_types extensions :
  candidates dir name (object_type :: object_types) extensions =
  map (fun extension => Posix.join dir [object_type; name] +++ extension)
    extensions
  ++ candidates dir name object_types extensions.
Proof. reflexivity. Qed.

Lemma candidates_no_extension dir name object_types :
  candidates dir name object_types [] = [].
Proof. induction object_types; cbn; auto. Qed.

Lemma candidates_nonempty dir name object_types extensions :
  object_types <> [] -> extensions <> [] ->
  candidates dir name object_types extensions <> [].
Proof.
  destruct object_types; [congruence|]. destruct extensions; [congruence|].
  discriminate.
Qed.

(** ** The Locator and its store *)

Lemma find_collection_hit W name v rest st :
  cache st = (name, v) :: rest ->
  find_collection W name st = (Return v, record_lookup name st).
Proof.
  intros H. unfold find_collection, lru_cache. cbn [cache record_lookup].
  rewrite H. cbn [cache_get]. rewrite String.eqb_refl.
  unfold cache_touch. cbn [cache_remove]. rewrite String.eqb_refl.
  destruct st; cbn in *; subst; reflexivity.
Qed.

Lemma find_collection_wrapped_cache W name st :
  cache (snd (find_collection_wrapped W name st)) = cache st.
Proof.
  unfold find_collection_wrapped.
  destruct (ansible_galaxy_path W); [|reflexivity].
  destruct (check_output W s name) as [[?|]| |]; reflexivity.
Qed.

Lemma find_collection_stores W name st v st' :
  find_collection W name st = (Return v, st') ->
  exists rest, cache st' = (name, v) :: rest.
Proof.
  unfold find_collection, lru_cache.
  destruct (cache_get name (cache (record_lookup name st))) as [v0|].
  - intros H. inversion H; subst. eexists. reflexivity.
  - destruct (find_collection_wrapped W name (record_lookup name st))
      as [[v0|e] st0]; intros H; inversion H; subst.
    eexists. reflexivity.
Qed.

(** ** The two loops of [find_object] *)

Lemma find_object_extensions_spec W collection name object_type dir :
  forall extensions location st rest,
    cache st = (collection, Some dir) :: rest ->
    let cands :=
      map (fun e => Posix.join dir [object_type; name] +++ e) extensions in
    exists st',
      find_object_extensions W collection name object_type extensions location st
      = (Return (match find (path_exists W) cands with
                 | Some p => inl p
                 | None => inr (last_bound cands location)
                 end), st')
      /\ cache st' = cache st.
Proof.
  induction extensions as [|e extensions IH]; intros location st rest Hc; cbn.
  - eexists; split; reflexivity.
  - unfold bind at 1. rewrite (find_collection_hit W _ _ _ _ Hc).
    unfold bind at 1. cbn.
    destruct (path_exists W (Posix.join_step (Posix.join_step dir object_type) name +++ e))
      eqn:E.
    + eexists; split; reflexivity.
    + destruct (IH (Some (Posix.join_step (Posix.join_step dir object_type) name +++ e))
                  (record_lookup collection st) rest Hc) as (st' & Hrun & Hst).
      exists st'. split; [exact Hrun | exact Hst].
Qed.

Lemma find_object_types_spec W collection name dir extensions :
  forall object_types l st rest,
    cache st = (collection, Some dir) :: rest ->
    let cands := candidates dir name object_types extensions in
    exists st',
      find_object_types W collection name object_types extensions l st
      = (Return (match find (path_exists W) cands with
                 | Some p => inl p
                 | None =>
                     inr {| object_type_var :=
                              last_bound object_types (object_type_var l);
                            location_var := last_bound cands (location_var l) |}
                 end), st')
      /\ cache st' = cache st.
Proof.
  induction object_types as [|ot object_types IH]; intros l st rest Hc.
  - cbn. exists st. destruct l; split; reflexivity.
  - cbn zeta. rewrite candidates_cons, find_app. cbn [find_object_types].
    destruct (find_object_extensions_spec W collection name ot dir extensions
                (location_var l) st rest Hc) as (st1 & Hrun & Hst1).
    cbn zeta in Hrun. unfold bind at 1. rewrite Hrun.
    destruct (find (path_exists W)
                (map (fun e => Posix.join dir [ot; name] +++ e) extensions)).
    + exists st1. split; [reflexivity | exact Hst1].
    + destruct (IH {| object_type_var := Some ot;
                      location_var :=
                        last_bound
                          (map (fun e => Posix.join dir [ot; name] +++ e) extensions)
                          (location_var l) |} st1 _
                  (eq_trans Hst1 Hc)) as (st2 & Hrun2 & Hst2).
      exists st2. cbn zeta in Hrun2. cbn [object_type_var location_var] in Hrun2.
      rewrite Hrun2, last_bound_app. rewrite last_bound_cons.
      split; [reflexivity | congruence].
Qed.

(** ** The two loops of [has_object] *)

Lemma has_object_extensions_spec W collection name object_type dir :
  forall extensions st rest,
    cache st = (collection, Some dir) :: rest ->
    exists st',
      has_object_extensions W collection name object_type extensions st
      = (Return (existsb (path_exists W)
                   (map (fun e => Posix.join dir [object_type; name] +++ e)
                      extensions)), st')
      /\ cache st' = cache st.
Proof.
  induction extensions as [|e extensions IH]; intros st rest Hc; cbn.
  - eexists; split; reflexivity.
  - unfold bind at 1. rewrite (find_collection_hit W _ _ _ _ Hc).
    unfold bind at 1. cbn.
    destruct (path_exists W (Posix.join_step (Posix.join_step dir object_type) name +++ e)).
    + eexists; split; reflexivity.
    + destruct (IH (record_lookup collection st) rest Hc) as (st' & Hrun & Hst).
      exists st'. split; [exact Hrun | exact Hst].
Qed.

Lemma has_object_types_spec W collection name dir extensions :
  forall object_types st rest,
    cache st = (collection, Some dir) :: rest ->
    exists st',
      has_object_types W collection name object_types extensions st
      = (Return (existsb (path_exists W)
                   (candidates dir name object_types extensions)), st')
      /\ cache st' = cache st.
Proof.
  induction object_types as [|ot object_types IH]; intros st rest Hc.
  - exists st. split; reflexivity.
  - rewrite candidates_cons, existsb_app. cbn [has_object_types].
    destruct (has_object_extensions_spec W collection name ot dir extensions
                st rest Hc) as (st1 & Hrun & Hst1).
    unfold bind at 1. rewrite Hrun.
    destruct (existsb (path_exists W)
                (map (fun e => Posix.join dir [ot; name] +++ e) extensions)).
    + exists st1. split; [reflexivity | exact Hst1].
    + destruct (IH st1 rest (eq_trans Hst1 Hc)) as (st2 & Hrun2 & Hst2).
      exists st2. split; [exact Hrun2 | congruence].
Qed.

(** [has_object] never raises once the Locator answered: it is [False] for
    an absent collection, and otherwise tells whether a candidate exists. *)
Lemma has_object_spec W collection name object_types extensions r st :
  fst (find_collection W collection st) = Return r ->
  fst (has_object W collection name object_types extensions st) =
  Return
    match r with
    | None => false
    | Some dir =>
        existsb (path_exists W)
          (candidates dir name (iterate object_types) (normalize extensions))
    end.
Proof.
  intros H. unfold has_object. unfold bind at 1.
  destruct (find_collection W collection st) as [[r0|e] st1] eqn:E;
    cbn in H; inversion H; subst r0.
  destruct r as [dir|]; [|reflexivity].
  apply find_collection_stores in E. destruct E as [rest Hc].
  destruct (has_object_types_spec W collection name dir (normalize extensions)
              (iterate object_types) st1 rest Hc) as (st2 & Hrun & _).
  rewrite Hrun. reflexivity.
Qed.

(** ** [find_object], as a search over the candidate paths *)

Lemma find_object_absent W collection name object_types extensions st :
  fst (find_collection W collection st) = Return None ->
  find_object W collection name object_types extensions st
  = (Return PyFalse, snd (find_collection W collection st)).
Proof.
  intros H. unfold find_object, bind.
  destruct (find_collection W collection st) as [[[d|]|e] st1];
    cbn in H; try discriminate.
  reflexivity.
Qed.

Lemma find_object_spec W collection name object_types extensions dir st :
  fst (find_collection W collection st) = Return (Some dir) ->
  fst (find_object W collection name object_types extensions st) =
  match find (path_exists W)
          (candidates dir name (iterate object_types) (normalize extensions)) with
  | Some p => Return (PyPath p)
  | None =>
      Raise (not_found_exn name collection
               (final_locals dir name (iterate object_types) (normalize extensions)))
  end.
Proof.
  intros H. unfold find_object. unfold bind at 1.
  destruct (find_collection W collection st) as [[r|e] st1] eqn:E;
    cbn in H; inversion H; subst.
  apply find_collection_stores in E. destruct E as [rest Hc].
  destruct (find_object_types_spec W collection name dir (normalize extensions)
              (iterate object_types)
              {| object_type_var := None; location_var := None |} st1 rest Hc)
    as (st2 & Hrun & _).
  cbn zeta in Hrun. unfold bind. rewrite Hrun.
  destruct (find (path_exists W)
              (candidates dir name (iterate object_types) (normalize extensions)));
    reflexivity.
Qed.

Lemma find_object_nothing_found W collection name object_types extensions dir st :
  fst (find_collection W collection st) = Return (Some dir) ->
  Forall (fun p => path_exists W p = false)
    (candidates dir name object_types extensions) ->
  fst (find_object W collection name (PList object_types) (PList extensions) st) =
  Raise
    match object_types, extensions with
    | [], _ => UnboundLocalError "object_type"
    | _ :: _, [] => UnboundLocalError "location"
    | _ :: _, _ :: _ =>
        FileNotFoundError
          (not_found_message (last object_types "") name collection
             (last (candidates dir name object_types extensions) ""))
    end.
Proof.
  intros Hdir Hnone.
  rewrite (find_object_spec _ _ _ _ _ dir) by exact Hdir. cbn [iterate normalize].
  apply find_none_iff in Hnone. rewrite Hnone. f_equal.
  unfold not_found_exn, final_locals. cbn [object_type_var location_var].
  destruct object_types as [|ot ots]; [reflexivity|].
  rewrite (last_bound_last (ot :: ots) None "") by discriminate.
  destruct extensions as [|e es].
  - rewrite candidates_no_extension. reflexivity.
  - rewrite (last_bound_last _ None "")
      by (apply candidates_nonempty; discriminate).
    reflexivity.
Qed.

(** When the first listed sub-path holds a matching file, the path returned
    lies under that sub-path. *)
Lemma find_object_prefers_first_subpath
    W collection name first others extensions dir st e :
  fst (find_collection W collection st) = Return (Some dir) ->
  In e extensions ->
  path_exists W (Posix.join dir [first; name] +++ e) = true ->
  exists e',
    In e' extensions /\
    fst (find_object W collection name (PList (first :: others))
           (PList extensions) st)
    = Return (PyPath (Posix.join dir [first; name] +++ e')).
Proof.
  intros Hdir Hin Hex.
  rewrite (find_object_spec _ _ _ _ _ dir) by exact Hdir. cbn [iterate normalize].
  rewrite candidates_cons, find_app.
  destruct (find (path_exists W)
              (map (fun x => Posix.join dir [first; name] +++ x) extensions))
    as [p|] eqn:F.
  - apply find_some in F. destruct F as [Hp _].
    apply in_map_iff in Hp. destruct Hp as (e' & <- & He').
    exists e'. split; [exact He' | reflexivity].
  - exfalso. rewrite find_none_iff, Forall_forall in F.
    specialize (F (Posix.join dir [first; name] +++ e)).
    rewrite F in Hex; [discriminate|].
    apply in_map_iff. exists e. split; [reflexivity | exact Hin].
Qed.

(** ** Claims on [find_object] and [load_rulebook] *)

(** C1, as stated, fails: with [ansible.eda] installed and no rulebook
    [nothing.yml] under either rulebook directory, [load_rulebook] raises the
    [FileNotFoundError] of [find_object], not [RulebookNotFoundException]. *)
Lemma load_rulebook_missing_file_counterexample :
  fst (find_collection Demo.world "ansible.eda" empty_state)
  = Return (Some (Demo.base +++ "/ansible/eda"))
  /\ Forall (fun p => path_exists Demo.world p = false)
       (candidates (Demo.base +++ "/ansible/eda") "nothing" RULEBOOK_PATHS [".yml"])
  /\ fst (load_rulebook Demo.world "ansible.eda" "nothing" empty_state)
     = Raise (FileNotFoundError
                ("Cannot find rulebooks nothing in ansible.eda at "
                 +++ Demo.base +++ "/ansible/eda/rulebooks/nothing.yml")).
Proof.
  split; [reflexivity|]. split; [repeat constructor | reflexivity].
Qed.

(** C1, amended: [load_rulebook] raises [RulebookNotFoundException] when the
    Locator reports the collection absent; when the collection is installed
    and no candidate rulebook file exists, it fails with the
    [FileNotFoundError] of [find_object], which names the last path probed. *)
Theorem load_rulebook_not_found W collection rulebook st r :
  fst (find_collection W collection st) = Return r ->
  match r with
  | None => True
  | Some dir =>
      Forall (fun p => path_exists W p = false)
        (candidates dir rulebook RULEBOOK_PATHS [".yml"])
  end ->
  fst (load_rulebook W collection rulebook st) =
  Raise
    match r with
    | None => RulebookNotFoundException ("Cannot find collection " +++ collection)
    | Some dir =>
        FileNotFoundError
          (not_found_message "rulebooks" rulebook collection
             (Posix.join dir ["rulebooks"; rulebook] +++ ".yml"))
    end.
Proof.
  intros Hloc Hnone. unfold load_rulebook, bind.
  destruct r as [dir|].
  - pose proof (find_object_nothing_found W collection rulebook RULEBOOK_PATHS
                  [".yml"] dir st Hloc Hnone) as H.
    assert (Hsame : find_object W collection rulebook (PList RULEBOOK_PATHS)
                      (PStr ".yml")
                    = find_object W collection rulebook (PList RULEBOOK_PATHS)
                        (PList [".yml"])) by reflexivity.
    rewrite Hsame.
    destruct (find_object W collection rulebook (PList RULEBOOK_PATHS)
                (PList [".yml"]) st) as [o st1].
    cbn in H. subst o. reflexivity.
  - rewrite find_object_absent by exact Hloc. reflexivity.
Qed.

Lemma load_rulebook_not_found_witness :
  fst (load_rulebook Demo.world "ansible.eda" "nothing" empty_state) =
  Raise (FileNotFoundError
           (not_found_message "rulebooks" "nothing" "ansible.eda"
              (Posix.join (Demo.base +++ "/ansible/eda") ["rulebooks"; "nothing"]
               +++ ".yml"))).
Proof.
  apply (load_rulebook_not_found Demo.world "ansible.eda" "nothing" empty_state
           (Some (Demo.base +++ "/ansible/eda"))).
  - reflexivity.
  - repeat constructor.
Defined.

(** C2, as stated, fails: for a collection the Locator reports absent,
    [find_object] returns [False] normally. *)
Lemma find_object_absent_counterexample :
  fst (find_collection Demo.world "missing.eda" empty_state) = Return None
  /\ fst (find_object Demo.world "missing.eda" "hello_events"
            (PList RULEBOOK_PATHS) (PStr ".yml") empty_state)
     = Return PyFalse
  /\ fst (find_playbook Demo.world "missing.eda" "hello" empty_state)
     = Return PyFalse.
Proof. repeat split. Qed.

(** C2, amended: where the Locator reports the collection absent,
    [find_object] (and so [find_playbook], [find_source],
    [find_source_filter]) raises nothing and returns [False], having done
    nothing but that one Locator call. *)
Theorem find_object_absent_returns_false
    W collection name object_types extensions st :
  fst (find_collection W collection st) = Return None ->
  find_object W collection name object_types extensions st
  = (Return PyFalse, snd (find_collection W collection st))
  /\ fst (find_playbook W collection name st) = Return PyFalse
  /\ fst (find_source W collection name st) = Return PyFalse
  /\ fst (find_source_filter W collection name st) = Return PyFalse.
Proof.
  intros H. unfold find_playbook, find_source, find_source_filter.
  rewrite !find_object_absent by exact H. repeat split.
Qed.

Lemma find_object_absent_returns_false_witness :
  find_object Demo.world "missing.eda" "range" (PList EDA_SOURCE_PATHS)
    (PStr ".py") empty_state
  = (Return PyFalse, snd (find_collection Demo.world "missing.eda" empty_state))
  /\ fst (find_playbook Demo.world "missing.eda" "range" empty_state)
     = Return PyFalse
  /\ fst (find_source Demo.world "missing.eda" "range" empty_state)
     = Return PyFalse
  /\ fst (find_source_filter Demo.world "missing.eda" "range" empty_state)
     = Return PyFalse.
Proof.
  apply (find_object_absent_returns_false Demo.world "missing.eda" "range"
           (PList EDA_SOURCE_PATHS) (PStr ".py") empty_state).
  reflexivity.
Defined.

(** C5, as stated, fails for the sub-path parameter: the scalar ["rulebooks"]
    is iterated character by character, so it does not behave like the
    one-element list [["rulebooks"]]. *)
Lemma scalar_subpath_counterexample :
  fst (find_object Demo.world "ansible.eda" "hello_events"
         (PList ["rulebooks"]) (PStr ".yml") empty_state)
  = Return (PyPath (Demo.base +++ "/ansible/eda/rulebooks/hello_events.yml"))
  /\ fst (find_object Demo.world "ansible.eda" "hello_events"
            (PStr "rulebooks") (PStr ".yml") empty_state)
     = Raise (FileNotFoundError
                ("Cannot find s hello_events in ansible.eda at "
                 +++ Demo.base +++ "/ansible/eda/s/hello_events.yml"))
  /\ fst (has_object Demo.world "ansible.eda" "hello_events"
            (PList ["rulebooks"]) (PStr ".yml") empty_state)
     = Return true
  /\ fst (has_object Demo.world "ansible.eda" "hello_events"
            (PStr "rulebooks") (PStr ".yml") empty_state)
     = Return false.
Proof. repeat split. Qed.

(** C5, amended: only the extension parameter is normalized. For
    [has_object] and [find_object], a scalar extension behaves exactly like
    the one-element list holding it; a scalar sub-path is not wrapped but
    iterated, so it behaves like the list of its characters. *)
Theorem scalar_extension_normalized W collection name object_types e s extensions :
  has_object W collection name object_types (PStr e)
  = has_object W collection name object_types (PList [e])
  /\ find_object W collection name object_types (PStr e)
     = find_object W collection name object_types (PList [e])
  /\ has_object W collection name (PStr s) extensions
     = has_object W collection name (PList (Str.chars s)) extensions
  /\ find_object W collection name (PStr s) extensions
     = find_object W collection name (PList (Str.chars s)) extensions.
Proof. repeat split. Qed.

(** C6: for an installed collection, [find_object] probes the candidate paths
    sub-path by sub-path in the order given and, within a sub-path, extension
    by extension in the order given, and returns the first one that exists. *)
Theorem find_object_first_existing
    W collection name object_types extensions dir st pre location post :
  fst (find_collection W collection st) = Return (Some dir) ->
  candidates dir name object_types extensions = pre ++ location :: post ->
  Forall (fun p => path_exists W p = false) pre ->
  path_exists W location = true ->
  fst (find_object W collection name (PList object_types) (PList extensions) st)
  = Return (PyPath location).
Proof.
  intros Hdir Hsplit Hpre Hloc.
  rewrite (find_object_spec _ _ _ _ _ dir) by exact Hdir. cbn [iterate normalize].
  rewrite Hsplit, (find_first _ _ _ _ Hpre Hloc). reflexivity.
Qed.

(** Rulebooks exist under both rulebook directories of [ansible.eda]; the one
    under the first listed directory is returned. *)
Lemma find_object_first_existing_witness :
  fst (find_object Demo.world "ansible.eda" "hello_events"
         (PList RULEBOOK_PATHS) (PList [".yml"]) empty_state)
  = Return (PyPath (Demo.base
                    +++ "/ansible/eda/extensions/eda/rulebooks/hello_events.yml")).
Proof.
  apply (find_object_first_existing Demo.world "ansible.eda" "hello_events"
           RULEBOOK_PATHS [".yml"] (Demo.base +++ "/ansible/eda") empty_state
           [] _ [Demo.base +++ "/ansible/eda/rulebooks/hello_events.yml"]).
  - reflexivity.
  - reflexivity.
  - constructor.
  - reflexivity.
Defined.

(** C9: for an installed collection under which no candidate exists, the
    [raise] of [find_object] is the [FileNotFoundError] naming the last
    sub-path and the last path probed only when both candidate lists are
    non-empty; with no sub-path it is an [UnboundLocalError] on
    [object_type], with sub-paths but no extension an [UnboundLocalError] on
    [location]. *)
Theorem find_object_unbound_locals
    W collection name object_types extensions dir st :
  fst (find_collection W collection st) = Return (Some dir) ->
  Forall (fun p => path_exists W p = false)
    (candidates dir name object_types extensions) ->
  fst (find_object W collection name (PList object_types) (PList extensions) st) =
  Raise
    match object_types, extensions with
    | [], _ => UnboundLocalError "object_type"
    | _ :: _, [] => UnboundLocalError "location"
    | _ :: _, _ :: _ =>
        FileNotFoundError
          (not_found_message (last object_types "") name collection
             (last (candidates dir name object_types extensions) ""))
    end.
Proof. apply find_object_nothing_found. Qed.

Lemma find_object_unbound_locals_witness :
  fst (find_object Demo.world "ansible.eda" "hello_events"
         (PList []) (PList [".yml"]) empty_state)
  = Raise (UnboundLocalError "object_type")
  /\ fst (find_object Demo.world "ansible.eda" "hello_events"
            (PList RULEBOOK_PATHS) (PList []) empty_state)
     = Raise (UnboundLocalError "location").
Proof.
  split.
  - apply (find_object_unbound_locals Demo.world "ansible.eda" "hello_events"
             [] [".yml"] (Demo.base +++ "/ansible/eda") empty_state).
    + reflexivity.
    + constructor.
  - apply (find_object_unbound_locals Demo.world "ansible.eda" "hello_events"
             RULEBOOK_PATHS [] (Demo.base +++ "/ansible/eda") empty_state).
    + reflexivity.
    + constructor.
Defined.



(** ** [os.path.join] on path-safe segments *)

Lemma endswith_char_app s t c :
  t <> "" -> Str.endswith_char (s +++ t) c = Str.endswith_char t c.
Proof.
  intros Ht. induction s as [|a s IH]; [reflexivity|].
  cbn [String.append Str.endswith_char]. rewrite IH.
  destruct (s +++ t) eqn:E; [|reflexivity].
  destruct s; cbn in E; [congruence | discriminate].
Qed.

Lemma no_sep_endswith s : no_sep s = true -> Str.endswith_char s "/" = false.
Proof.
  induction s as [|a s IH]; [reflexivity|]. cbn [no_sep Str.endswith_char].
  intros H. apply andb_prop in H. destruct H as [Ha Hs].
  destruct s; [|exact (IH Hs)].
  destruct (Ascii.eqb a "/"); [discriminate | reflexivity].
Qed.

Lemma no_sep_startswith s : no_sep s = true -> Str.startswith s Posix.sep = false.
Proof.
  destruct s as [|a s]; [reflexivity|]. intros H.
  unfold Str.startswith, Posix.sep. cbn [String.prefix].
  destruct (ascii_dec "/" a) as [E|E]; [|reflexivity].
  subst a. cbn in H. discriminate.
Qed.

Lemma append_nonempty s t : t <> "" -> s +++ t <> "".
Proof. destruct s; cbn; [auto | discriminate]. Qed.

Lemma join_step_nested path segment :
  path <> "" -> Str.endswith_char path "/" = false ->
  path_safe segment = true ->
  Posix.join_step path segment = path +++ "/" +++ segment
  /\ path +++ "/" +++ segment <> ""
  /\ Str.endswith_char (path +++ "/" +++ segment) "/" = false.
Proof.
  intros Hne Hend Hsafe. unfold path_safe in Hsafe.
  apply andb_prop in Hsafe. destruct Hsafe as [Hseg Hsep].
  apply negb_true_iff, String.eqb_neq in Hseg.
  unfold Posix.join_step. rewrite (no_sep_startswith _ Hsep), Hend.
  apply String.eqb_neq in Hne. rewrite Hne. cbn [orb].
  split; [reflexivity|]. split.
  - apply append_nonempty. discriminate.
  - rewrite endswith_char_app by discriminate.
    change ("/" +++ segment) with (String "/" segment).
    destruct segment; [congruence|]. cbn [Str.endswith_char].
    apply (no_sep_endswith _ Hsep).
Qed.

(** For a base that is not empty and does not end in the separator,
    [os.path.join] with path-safe segments nests them under the base. *)
Lemma join_nested base segments :
  base <> "" -> Str.endswith_char base "/" = false ->
  forallb path_safe segments = true ->
  Posix.join base segments = nested base segments.
Proof.
  revert base. induction segments as [|seg segments IH]; intros base Hne Hend Hs.
  - reflexivity.
  - cbn [forallb] in Hs. apply andb_prop in Hs. destruct Hs as [Hseg Hrest].
    destruct (join_step_nested base seg Hne Hend Hseg) as (Hj & Hne' & Hend').
    unfold Posix.join. cbn [fold_left nested]. rewrite Hj.
    apply IH; assumption.
Qed.

(** ** Claims on [find_collection] *)

Lemma scan_lines_spec W parts lines :
  scan_lines W parts lines =
  find (path_exists W)
    (map (fun base => Posix.join base parts)
       (map (Str.drop 2)
          (filter (fun line => Str.startswith line comment_marker) lines))).
Proof.
  induction lines as [|line lines IH]; [reflexivity|].
  cbn [scan_lines filter].
  destruct (Str.startswith line comment_marker); [|exact IH].
  cbn [map find].
  destruct (path_exists W (Posix.join (Str.drop 2 line) parts));
    [reflexivity | exact IH].
Qed.

(** ** Claims on [is_deprecated] *)

(** C8: a name that splits on ['.'] into fewer than two segments is reported
    as not deprecated, and the state is left as it was: no call of
    [find_collection] is made. *)
Theorem is_deprecated_short_name W name obj_type st :
  List.length (Str.split "."%char name) < 2 ->
  is_deprecated W name obj_type st = (Return (false, YNull), st)
  /\ lookups (snd (is_deprecated W name obj_type st)) = lookups st.
Proof.
  intros H. unfold is_deprecated.
  apply Nat.ltb_lt in H. rewrite H. split; reflexivity.
Qed.

Lemma is_deprecated_short_name_witness :
  is_deprecated Demo.unconfigured "invalid_name" "event_source" empty_state
  = (Return (false, YNull), empty_state)
  /\ lookups (snd (is_deprecated Demo.unconfigured "invalid_name" "event_source"
                     empty_state))
     = lookups empty_state.
Proof.
  apply (is_deprecated_short_name Demo.unconfigured "invalid_name" "event_source"
           empty_state).
  vm_compute. lia.
Defined.

(** C3, as stated, fails: with the lister path unset, the configuration
    error of [find_collection] passes through [is_deprecated]; and a
    [meta/runtime.yml] that decodes to [None] makes it raise a [TypeError]. *)
Lemma is_deprecated_raises_counterexample :
  fst (is_deprecated Demo.unconfigured "ansible.eda.json_filter" "event_filter"
         empty_state)
  = Raise (Exception "ansible-galaxy is not installed")
  /\ fst (is_deprecated Demo.blank_runtime "ansible.eda.json_filter"
            "event_filter" empty_state)
     = Raise TypeError.
Proof. split; reflexivity. Qed.

(** C3, amended: [is_deprecated] returns [(False, None)] when the name has
    fewer than two segments, or when [find_collection] returns and one of
    these lookups misses: the collection is absent, [meta/runtime.yml] does
    not exist, or the file decodes to a mapping in which [plugin_routing],
    the key of the object kind, the entry of the name or its [redirect] is
    missing, each enclosing value being a mapping. It handles no exception:
    for a name of two or more segments whose collection is not in the store
    of the Locator, an unset lister path makes the configuration error of
    [find_collection] pass through. *)
Theorem is_deprecated_degrades W name obj_type st :
  (List.length (Str.split "."%char name) < 2
   \/ (exists r,
         fst (find_collection W (owner name) st) = Return r
         /\ lookup_misses W name obj_type r) ->
   fst (is_deprecated W name obj_type st) = Return not_deprecated)
  /\ (2 <= List.length (Str.split "."%char name) ->
      ansible_galaxy_path W = None ->
      cache_get (owner name) (cache st) = None ->
      fst (is_deprecated W name obj_type st)
      = Raise (Exception "ansible-galaxy is not installed")).
Proof.
  split.
  - intros [Hshort | (r & Hloc & Hmiss)]; unfold is_deprecated.
    + apply Nat.ltb_lt in Hshort. rewrite Hshort. reflexivity.
    + destruct (Nat.ltb (List.length (Str.split "."%char name)) 2);
        [reflexivity|].
      fold (owner name). unfold bind at 1.
      destruct (find_collection W (owner name) st) as [[r0|e] st1];
        cbn in Hloc; inversion Hloc; subst r0.
      destruct Hmiss as
        [ | dir H
          | dir text data H H0 H1 H2
          | dir text data routing H H0 H1 H2 H3
          | dir text data routing objs H H0 H1 H2 H3 H4
          | dir text data routing objs item H H0 H1 H2 H3 H4 H5 ];
        try fold (runtime_path dir); try rewrite H;
        try (unfold bind, load_yaml; rewrite H0, H1; cbn -[routing_key];
             rewrite H2).
      * reflexivity.
      * reflexivity.
      * reflexivity.
      * cbn -[routing_key]. rewrite H3. reflexivity.
      * cbn -[routing_key]. rewrite H3. cbn -[routing_key]. rewrite H4.
        reflexivity.
      * cbn -[routing_key]. rewrite H3. cbn -[routing_key]. rewrite H4.
        cbn -[routing_key]. rewrite H5. reflexivity.
  - intros Hlong Hnone Hmiss. unfold is_deprecated.
    apply Nat.ltb_ge in Hlong. rewrite Hlong. fold (owner name).
    unfold bind, find_collection, lru_cache. cbn [cache record_lookup].
    rewrite Hmiss. unfold find_collection_wrapped. rewrite Hnone. reflexivity.
Qed.

Lemma is_deprecated_degrades_witness :
  fst (is_deprecated Demo.world "ansible.eda.json_filter" "event_source"
         empty_state)
  = Return not_deprecated
  /\ fst (is_deprecated Demo.unconfigured "ansible.eda.json_filter"
            "event_filter" empty_state)
     = Raise (Exception "ansible-galaxy is not installed").
Proof.
  split.
  - apply (proj1 (is_deprecated_degrades Demo.world "ansible.eda.json_filter"
                    "event_source" empty_state)).
    right. exists (Some (Demo.base +++ "/ansible/eda")).
    split; [reflexivity|].
    apply (miss_kind Demo.world "ansible.eda.json_filter" "event_source"
             (Demo.base +++ "/ansible/eda") Demo.runtime_text
             [("plugin_routing",
               YMap [("extensions.eda.plugins.event_filter",
                 YMap [("ansible.eda.json_filter",
                   YMap [("redirect", YStr "eda.builtin.json_filter");
                         ("deprecation",
                          YMap [("warning_text",
                                 YStr "Use eda.builtin.json_filter");
                                ("removal_version", YStr "3.0.0")])])])])]
             [("extensions.eda.plugins.event_filter",
                 YMap [("ansible.eda.json_filter",
                   YMap [("redirect", YStr "eda.builtin.json_filter");
                         ("deprecation",
                          YMap [("warning_text",
                                 YStr "Use eda.builtin.json_filter");
                                ("removal_version", YStr "3.0.0")])])])]);
      reflexivity.
  - apply (proj2 (is_deprecated_degrades Demo.unconfigured
                    "ansible.eda.json_filter" "event_filter" empty_state)).
    + vm_compute. lia.
    + reflexivity.
    + reflexivity.
Defined.

(** ** The store of [lru_cache] *)

Lemma cache_get_none n c : cache_get n c = None <-> ~ In n (keys c).
Proof.
  induction c as [|[k v] c IH]; cbn; [tauto|].
  destruct (String.eqb_spec k n) as [E|E].
  - split; [discriminate|]. intros H. exfalso. apply H. left. exact E.
  - rewrite IH. tauto.
Qed.

Lemma cache_get_app n c1 c2 :
  cache_get n (c1 ++ c2) =
  match cache_get n c1 with Some v => Some v | None => cache_get n c2 end.
Proof.
  induction c1 as [|[k v] c1 IH]; cbn; [reflexivity|].
  destruct (String.eqb k n); [reflexivity | exact IH].
Qed.

Lemma cache_remove_app n c1 c2 :
  cache_remove n (c1 ++ c2) =
  match cache_get n c1 with
  | Some _ => cache_remove n c1 ++ c2
  | None => c1 ++ cache_remove n c2
  end.
Proof.
  induction c1 as [|[k v] c1 IH]; cbn; [reflexivity|].
  destruct (String.eqb k n); [reflexivity|].
  rewrite IH. destruct (cache_get n c1); reflexivity.
Qed.

Lemma keys_cache_remove_incl n c : incl (keys (cache_remove n c)) (keys c).
Proof.
  induction c as [|[k v] c IH]; cbn; [apply incl_refl|].
  destruct (String.eqb k n).
  - apply incl_tl, incl_refl.
  - cbn. apply incl_cons; [left; reflexivity | apply incl_tl, IH].
Qed.

Lemma keys_cache_remove_nodup n c :
  NoDup (keys c) ->
  NoDup (keys (cache_remove n c)) /\ ~ In n (keys (cache_remove n c)).
Proof.
  induction c as [|[k v] c IH]; cbn; intros H.
  - split; [constructor | tauto].
  - inversion H as [|? ? Hk Hc]; subst.
    destruct (String.eqb_spec k n) as [E|E].
    + subst. split; assumption.
    + destruct (IH Hc) as [IH1 IH2]. cbn. split.
      * constructor; [|exact IH1].
        intros Hin. apply Hk. eapply keys_cache_remove_incl. exact Hin.
      * intros [E'|Hin]; [congruence | auto].
Qed.

Lemma other_names_spec name calls n :
  In n (other_names name calls) <-> n <> name /\ In n (map snd calls).
Proof.
  unfold other_names. rewrite nodup_In, filter_In.
  destruct (String.eqb_spec n name); cbn; intuition congruence.
Qed.

Lemma other_names_grow name calls call :
  incl (other_names name calls) (other_names name (calls ++ [call])).
Proof.
  intros n. rewrite !other_names_spec, map_app, in_app_iff. tauto.
Qed.

Lemma other_names_last name calls W n :
  n <> name -> In n (other_names name (calls ++ [(W, n)])).
Proof.
  intros H. rewrite other_names_spec, map_app, in_app_iff.
  split; [exact H|]. right. left. reflexivity.
Qed.

Lemma other_names_length_grow name calls call :
  List.length (other_names name calls)
  <= List.length (other_names name (calls ++ [call])).
Proof.
  apply NoDup_incl_length; [apply NoDup_nodup | apply other_names_grow].
Qed.

Lemma retained_get name r calls st :
  retained name r calls st -> cache_get name (cache st) = Some r.
Proof.
  intros (pre & post & Hc & _ & Hinc). rewrite Hc, cache_get_app.
  assert (Hn : cache_get name pre = None).
  { apply cache_get_none. intros Hin. apply Hinc in Hin.
    apply other_names_spec in Hin. tauto. }
  rewrite Hn. cbn. rewrite String.eqb_refl. reflexivity.
Qed.

(** One more Locator call keeps the entry of [name], as long as the names
    located since stay fewer than [maxsize]. *)
Lemma retained_step name r calls st W n :
  retained name r calls st ->
  List.length (other_names name (calls ++ [(W, n)])) < maxsize ->
  retained name r (calls ++ [(W, n)]) (locate_step st (W, n)).
Proof.
  intros Hret Hlen. pose proof (retained_get _ _ _ _ Hret) as Hget.
  destruct Hret as (pre & post & Hc & Hnd & Hinc).
  unfold locate_step, find_collection, lru_cache.
  cbn [fst snd cache record_lookup].
  destruct (String.eqb_spec n name) as [E|E].
  - subst n. rewrite Hget. cbn [snd set_cache cache]. unfold cache_touch.
    exists [], (cache_remove name (cache st)).
    split; [reflexivity|]. split; [constructor | intros x []].
  - assert (Hgrow : incl (keys pre) (other_names name (calls ++ [(W, n)])))
      by (eapply incl_tran; [exact Hinc | apply other_names_grow]).
    assert (Hnew : In n (other_names name (calls ++ [(W, n)])))
      by (apply other_names_last; exact E).
    assert (Hne : String.eqb name n = false)
      by (apply String.eqb_neq; congruence).
    destruct (cache_get n pre) as [v|] eqn:G.
    + (* a hit in front of the entry *)
      rewrite Hc, cache_get_app, G. cbn [snd set_cache cache].
      unfold cache_touch. rewrite cache_remove_app, G.
      exists ((n, v) :: cache_remove n pre), post.
      split; [reflexivity|].
      destruct (keys_cache_remove_nodup n pre Hnd) as [N1 N2].
      split; [cbn; constructor; assumption|].
      cbn. apply incl_cons; [exact Hnew|].
      eapply incl_tran; [apply keys_cache_remove_incl | exact Hgrow].
    + assert (Hfresh : ~ In n (keys pre)) by (apply cache_get_none; exact G).
      destruct (cache_get n post) as [v|] eqn:G2.
      * (* a hit behind the entry *)
        rewrite Hc, cache_get_app, G. cbn [cache_get]. rewrite Hne, G2.
        cbn [snd set_cache cache]. unfold cache_touch.
        rewrite cache_remove_app, G. cbn [cache_remove]. rewrite Hne.
        exists ((n, v) :: pre), (cache_remove n post).
        split; [reflexivity|].
        split; [cbn; constructor; assumption|].
        cbn. apply incl_cons; assumption.
      * (* a miss *)
        rewrite Hc, cache_get_app, G. cbn [cache_get]. rewrite Hne, G2.
        pose proof (find_collection_wrapped_cache W n (record_lookup n st)) as Hw.
        destruct (find_collection_wrapped W n (record_lookup n st))
          as [[v|e] st'].
        -- cbn [snd cache record_lookup] in Hw. cbn [snd set_cache cache].
           rewrite Hw. unfold cache_put.
           assert (Hpre : S (List.length pre) < maxsize).
           { eapply Nat.le_lt_trans; [|exact Hlen].
             change (S (List.length pre))
               with (List.length ((n, v) :: pre)).
             rewrite <- (length_map fst). apply NoDup_incl_length.
             - cbn. constructor; assumption.
             - cbn. apply incl_cons; assumption. }
           exists ((n, v) :: pre).
           destruct (Nat.leb_spec maxsize (List.length (cache st))) as [L|L].
           ++ rewrite Hc in L. rewrite length_app in L. cbn [List.length] in L.
              destruct post as [|x post]; [exfalso; cbn [List.length] in L; lia|].
              exists (removelast (x :: post)). rewrite Hc.
              rewrite removelast_app by discriminate.
              split; [reflexivity|].
              split; [cbn; constructor; assumption|].
              cbn. apply incl_cons; assumption.
           ++ exists post. rewrite Hc.
              split; [reflexivity|].
              split; [cbn; constructor; assumption|].
              cbn. apply incl_cons; assumption.
        -- cbn [snd cache record_lookup] in Hw. cbn [snd]. unfold retained.
           rewrite Hw.
           exists pre, post. repeat split; assumption.
Qed.

Lemma retained_after_calls name r st calls :
  retained name r [] st ->
  List.length (other_names name calls) < maxsize ->
  retained name r calls (locate_all calls st).
Proof.
  intros H0. induction calls as [|[W n] calls IH] using rev_ind; intros Hlen.
  - exact H0.
  - unfold locate_all. rewrite fold_left_app. cbn [fold_left].
    apply retained_step; [|exact Hlen].
    apply IH. eapply Nat.le_lt_trans; [apply other_names_length_grow|exact Hlen].
Qed.

Lemma find_collection_hit_quiet W name r st :
  cache_get name (cache st) = Some r ->
  fst (find_collection W name st) = Return r
  /\ lister_calls (snd (find_collection W name st)) = lister_calls st.
Proof.
  intros H. unfold find_collection, lru_cache. cbn [cache record_lookup].
  rewrite H. split; reflexivity.
Qed.

(** ** Claims on the cache of the Locator *)

(** C4, as stated, fails: the store keeps 128 names. After [ansible.eda] was
    located, locating 128 other names evicts it, and the next call for
    [ansible.eda] runs the lister again. *)
Lemma cache_eviction_counterexample :
  fst (find_collection Demo.crowded "ansible.eda" empty_state)
  = Return (Some (Demo.base +++ "/ansible/eda"))
  /\ lister_calls (Demo.located Demo.crowded) = ["ansible.eda"]
  /\ List.length (other_names "ansible.eda" Demo.many_calls) = 128
  /\ cache_get "ansible.eda"
       (cache (locate_all Demo.many_calls (Demo.located Demo.crowded)))
     = None
  /\ lister_calls
       (snd (find_collection Demo.crowded "ansible.eda"
               (locate_all Demo.many_calls (Demo.located Demo.crowded))))
     = "ansible.eda"
       :: lister_calls (locate_all Demo.many_calls (Demo.located Demo.crowded)).
Proof. vm_compute. repeat split. Qed.

(** C4, amended: the store of the Locator is an LRU store of 128 entries.
    Once a name was located, a later call with the same name returns the
    stored result without running the lister, whatever the world looks like
    by then, provided fewer than 128 distinct other names were looked up in
    between. *)
Theorem find_collection_cached_within_maxsize W0 name st r st1 calls W1 :
  find_collection W0 name st = (Return r, st1) ->
  List.length (other_names name calls) < maxsize ->
  fst (find_collection W1 name (locate_all calls st1)) = Return r
  /\ lister_calls (snd (find_collection W1 name (locate_all calls st1)))
     = lister_calls (locate_all calls st1).
Proof.
  intros Hfirst Hlen. apply find_collection_hit_quiet.
  apply (retained_get name r calls). apply retained_after_calls; [|exact Hlen].
  apply find_collection_stores in Hfirst. destruct Hfirst as [rest Hc].
  exists [], rest. split; [exact Hc|].
  split; [constructor | intros x []].
Qed.

Lemma find_collection_cached_within_maxsize_witness :
  fst (find_collection Demo.unconfigured "ansible.eda"
         (locate_all Demo.few_calls (Demo.located Demo.world)))
  = Return (Some (Demo.base +++ "/ansible/eda"))
  /\ lister_calls
       (snd (find_collection Demo.unconfigured "ansible.eda"
               (locate_all Demo.few_calls (Demo.located Demo.world))))
     = lister_calls (locate_all Demo.few_calls (Demo.located Demo.world)).
Proof.
  apply (find_collection_cached_within_maxsize Demo.world "ansible.eda"
           empty_state (Some (Demo.base +++ "/ansible/eda"))
           (Demo.located Demo.world) Demo.few_calls Demo.unconfigured).
  - reflexivity.
  - vm_compute. lia.
Defined.


(** * Further properties of the module *)

(** ** Splitting names *)

Lemma append_assoc (a b c : string) : (a +++ b) +++ c = a +++ b +++ c.
Proof. induction a as [|x a IH]; cbn; [reflexivity | now rewrite IH]. Qed.

Lemma append_empty (a : string) : a +++ "" = a.
Proof. induction a as [|x a IH]; cbn; [reflexivity | now rewrite IH]. Qed.

Lemma split_from_nonempty sep cur s : Str.split_from sep cur s <> [].
Proof.
  revert cur. induction s as [|c s IH]; intros cur; cbn; [discriminate|].
  destruct (Ascii.eqb c sep); [discriminate | apply IH].
Qed.

Lemma join_cons sep p rest :
  rest <> [] -> Str.join sep (p :: rest) = p +++ sep +++ Str.join sep rest.
Proof. destruct rest; [congruence | reflexivity]. Qed.

Lemma join_split_from sep cur s :
  Str.join (String sep "") (Str.split_from sep cur s) = cur +++ s.
Proof.
  revert cur. induction s as [|c s IH]; intros cur; cbn [Str.split_from].
  - cbn. now rewrite append_empty.
  - destruct (Ascii.eqb_spec c sep) as [E|E].
    + subst c. rewrite join_cons by apply split_from_nonempty.
      rewrite IH. reflexivity.
    + rewrite IH. unfold Str.snoc. rewrite append_assoc. reflexivity.
Qed.

Lemma rsplit_once_none sep s :
  Str.rsplit_once sep s = None <-> Str.occurs sep s = false.
Proof.
  induction s as [|c s IH]; cbn; [tauto|].
  destruct (Str.rsplit_once sep s) as [[h t]|].
  - split; [discriminate|]. intros H. apply orb_false_iff in H.
    destruct H as [_ H]. apply IH in H. discriminate.
  - destruct (Ascii.eqb c sep); cbn; [split; discriminate|].
    split; intros _; [apply IH|]; reflexivity.
Qed.

Lemma rsplit_once_some sep s h t :
  Str.rsplit_once sep s = Some (h, t) ->
  s = h +++ String sep t /\ Str.occurs sep t = false.
Proof.
  revert h. induction s as [|c s IH]; intros h; cbn; [discriminate|].
  destruct (Str.rsplit_once sep s) as [[h' t']|] eqn:E.
  - intros H. inversion H; subst. destruct (IH h' eq_refl) as [Hs Ht].
    split; [cbn; congruence | exact Ht].
  - destruct (Ascii.eqb_spec c sep) as [Ec|Ec]; [|discriminate].
    intros H. inversion H; subst. split; [reflexivity|].
    apply rsplit_once_none. exact E.
Qed.

Lemma split_from_no_sep sep cur s :
  Str.rsplit_once sep s = None -> Str.split_from sep cur s = [cur +++ s].
Proof.
  revert cur. induction s as [|c s IH]; intros cur; cbn.
  - intros _. rewrite append_empty. reflexivity.
  - destruct (Str.rsplit_once sep s) as [[h t]|]; [discriminate|].
    destruct (Ascii.eqb c sep); [discriminate|]. intros _.
    rewrite IH by reflexivity. unfold Str.snoc. now rewrite append_assoc.
Qed.

Lemma split_from_last sep cur s h t :
  Str.rsplit_once sep s = Some (h, t) ->
  Str.split_from sep cur s = Str.split_from sep cur h ++ [t].
Proof.
  revert cur h. induction s as [|c s IH]; intros cur h; cbn; [discriminate|].
  destruct (Str.rsplit_once sep s) as [[h' t']|] eqn:E.
  - intros H. inversion H; subst. cbn [Str.split_from].
    destruct (Ascii.eqb c sep); rewrite (IH _ h' eq_refl); reflexivity.
  - destruct (Ascii.eqb c sep); [|discriminate].
    intros H. inversion H; subst. cbn [Str.split_from].
    rewrite split_from_no_sep by exact E. reflexivity.
Qed.

(** X1: [split_collection_name] cuts at the last dot. The resource part
    never holds a dot; a name with a dot is the collection, a dot and the
    resource put together again; a name without one is all resource, with
    an empty collection. *)
Theorem split_collection_name_roundtrip s :
  Str.occurs "." (snd (split_collection_name s)) = false
  /\ (if Str.occurs "." s
      then s = fst (split_collection_name s) +++ "." +++ snd (split_collection_name s)
      else split_collection_name s = ("", s)).
Proof.
  unfold split_collection_name, Str.rpartition.
  destruct (Str.rsplit_once "." s) as [[h t]|] eqn:E.
  - destruct (rsplit_once_some _ _ _ _ E) as [Hs Ht]. cbn [fst snd].
    split; [exact Ht|].
    destruct (Str.occurs "." s) eqn:O; [exact Hs|].
    apply rsplit_once_none in O. congruence.
  - pose proof E as O. apply rsplit_once_none in O. rewrite O. cbn [snd].
    split; [exact O | reflexivity].
Qed.

(** X2: on a name with a dot, [split_collection_name] and [is_deprecated]
    agree on the owning collection: the head of [rpartition] is the
    dot-joined list of all segments but the last, and the resource is the
    last segment. *)
Theorem split_collection_name_owner name :
  Str.occurs "." name = true ->
  split_collection_name name
  = (owner name, last (Str.split "."%char name) "")
  /\ 2 <= List.length (Str.split "."%char name).
Proof.
  intros O. unfold split_collection_name, Str.rpartition, owner, Str.split.
  destruct (Str.rsplit_once "." name) as [[h t]|] eqn:E.
  - rewrite (split_from_last _ _ _ _ _ E).
    rewrite removelast_last, last_last, length_app.
    change (Str.join "." (Str.split_from "." "" h))
      with (Str.join (String "." "") (Str.split_from "." "" h)).
    rewrite join_split_from. cbn [String.append List.length].
    split; [reflexivity|].
    pose proof (split_from_nonempty "." "" h) as Hne.
    destruct (Str.split_from "." "" h); [congruence | cbn; lia].
  - apply rsplit_once_none in E. congruence.
Qed.

Lemma split_collection_name_owner_witness :
  split_collection_name "ansible.eda.range"
  = (owner "ansible.eda.range", last (Str.split "."%char "ansible.eda.range") "")
  /\ 2 <= List.length (Str.split "."%char "ansible.eda.range").
Proof.
  apply (split_collection_name_owner "ansible.eda.range"). reflexivity.
Defined.

Lemma split_short sep s :
  Str.occurs sep s = false -> Str.split sep s = [s].
Proof.
  intros O. apply rsplit_once_none in O. unfold Str.split.
  rewrite split_from_no_sep by exact O. reflexivity.
Qed.

(** ** The Locator: errors, negative results, and what it returns *)

Lemma find_collection_miss W name st :
  cache_get name (cache st) = None ->
  find_collection W name st =
  match find_collection_wrapped W name (record_lookup name st) with
  | (Return v, st') => (Return v, set_cache (cache_put name v (cache st')) st')
  | (Raise e, st') => (Raise e, st')
  end.
Proof.
  intros H. unfold find_collection, lru_cache. cbn [cache record_lookup].
  rewrite H. reflexivity.
Qed.

(** X3: with the lister path unset, a call that is not answered by the store
    raises the configuration error before any subprocess is run, and stores
    nothing: the same name, asked again once the path is set, reaches the
    lister. *)
Theorem find_collection_config_error_not_stored W name st W' exe :
  ansible_galaxy_path W = None ->
  cache_get name (cache st) = None ->
  ansible_galaxy_path W' = Some exe ->
  find_collection W name st
  = (Raise (Exception "ansible-galaxy is not installed"), record_lookup name st)
  /\ lister_calls (snd (find_collection W' name (record_lookup name st)))
     = name :: lister_calls st.
Proof.
  intros Hnone Hmiss Hexe. split.
  - rewrite find_collection_miss by exact Hmiss.
    unfold find_collection_wrapped. rewrite Hnone. reflexivity.
  - rewrite find_collection_miss by exact Hmiss.
    unfold find_collection_wrapped. rewrite Hexe.
    destruct (check_output W' exe name) as [[out|]|out|]; reflexivity.
Qed.

Lemma find_collection_config_error_not_stored_witness :
  find_collection Demo.unconfigured "ansible.eda" empty_state
  = (Raise (Exception "ansible-galaxy is not installed"),
     record_lookup "ansible.eda" empty_state)
  /\ lister_calls (snd (find_collection Demo.world "ansible.eda"
                          (record_lookup "ansible.eda" empty_state)))
     = "ansible.eda" :: lister_calls empty_state.
Proof.
  apply (find_collection_config_error_not_stored Demo.unconfigured "ansible.eda"
           empty_state Demo.world "/usr/bin/ansible-galaxy"); reflexivity.
Defined.

(** X4: a lister run that exits with a non-zero status is logged once and
    answered with [None], and that answer is stored like any other: the next
    call for the name returns [None] without a subprocess and without a log
    record, whatever has been installed meanwhile. *)
Theorem find_collection_failure_stored W name exe out st W' :
  ansible_galaxy_path W = Some exe ->
  check_output W exe name = CalledProcessError out ->
  cache_get name (cache st) = None ->
  exists st1,
    find_collection W name st = (Return None, st1)
    /\ log st1 = LogError "Error listing collections: %s" out :: log st
    /\ lister_calls st1 = name :: lister_calls st
    /\ find_collection W' name st1 = (Return None, record_lookup name st1).
Proof.
  intros Hexe Hout Hmiss. rewrite find_collection_miss by exact Hmiss.
  unfold find_collection_wrapped. rewrite Hexe, Hout.
  eexists. split; [reflexivity|]. split; [reflexivity|]. split; [reflexivity|].
  eapply find_collection_hit. reflexivity.
Qed.

Lemma find_collection_failure_stored_witness :
  exists st1,
    find_collection Demo.world "missing.eda" empty_state = (Return None, st1)
    /\ log st1
       = LogError "Error listing collections: %s"
           "ERROR! - None of the provided paths were usable."
         :: log empty_state
    /\ lister_calls st1 = "missing.eda" :: lister_calls empty_state
    /\ find_collection Demo.crowded "missing.eda" st1
       = (Return None, record_lookup "missing.eda" st1).
Proof.
  apply (find_collection_failure_stored Demo.world "missing.eda"
           "/usr/bin/ansible-galaxy"
           "ERROR! - None of the provided paths were usable."
           empty_state Demo.crowded); reflexivity.
Defined.

(** X5: a directory that a lister run yields existed when it was probed, and
    is one of the marked bases of the listing joined with the segments of
    the name. *)
Theorem find_collection_sound W name st location :
  cache_get name (cache st) = None ->
  fst (find_collection W name st) = Return (Some location) ->
  path_exists W location = true
  /\ exists exe output base,
       ansible_galaxy_path W = Some exe
       /\ check_output W exe name = Completed (Some output)
       /\ In base (marked_bases output)
       /\ location = Posix.join base (Str.split "."%char name).
Proof.
  intros Hmiss H. rewrite find_collection_miss in H by exact Hmiss.
  unfold find_collection_wrapped in H.
  destruct (ansible_galaxy_path W) as [exe|] eqn:Hexe; [|discriminate].
  destruct (check_output W exe name) as [[output|]|out|] eqn:Hout;
    try discriminate.
  cbn in H. rewrite scan_lines_spec in H. inversion H as [F]. clear H.
  apply find_some in F. destruct F as [Hin Hex]. split; [exact Hex|].
  apply in_map_iff in Hin. destruct Hin as (base & Hloc & Hbase).
  exists exe, output, base. repeat split; auto.
Qed.

Lemma find_collection_sound_witness :
  path_exists Demo.world (Demo.base +++ "/community/general") = true
  /\ exists exe output base,
       ansible_galaxy_path Demo.world = Some exe
       /\ check_output Demo.world exe "community.general"
          = Completed (Some output)
       /\ In base (marked_bases output)
       /\ Demo.base +++ "/community/general"
          = Posix.join base (Str.split "."%char "community.general").
Proof.
  apply (find_collection_sound Demo.world "community.general" empty_state);
    reflexivity.
Defined.

(** X7: when every marked base of the listing is a non-empty directory name
    without a trailing separator and every segment of the name is path-safe,
    the directory found is [base/segment/.../segment] for the first marked
    base under which that path exists. *)
Theorem find_collection_nested W name exe output st :
  ansible_galaxy_path W = Some exe ->
  check_output W exe name = Completed (Some output) ->
  cache_get name (cache st) = None ->
  forallb open_dir (marked_bases output) = true ->
  forallb path_safe (Str.split "."%char name) = true ->
  fst (find_collection W name st)
  = Return (find (path_exists W)
              (map (fun base => nested base (Str.split "."%char name))
                 (marked_bases output))).
Proof.
  intros Hexe Hout Hmiss Hbases Hsegs.
  rewrite find_collection_miss by exact Hmiss.
  unfold find_collection_wrapped. rewrite Hexe, Hout. cbn [fst].
  rewrite scan_lines_spec. fold (marked_bases output). do 2 f_equal.
  apply map_ext_in. intros base Hin.
  rewrite forallb_forall in Hbases. specialize (Hbases base Hin).
  unfold open_dir in Hbases. apply andb_prop in Hbases.
  destruct Hbases as [Hne Hend].
  apply negb_true_iff in Hne, Hend. apply String.eqb_neq in Hne.
  apply join_nested; assumption.
Qed.

Lemma find_collection_nested_witness :
  fst (find_collection Demo.world "ansible.eda" empty_state)
  = Return (find (path_exists Demo.world)
              (map (fun base => nested base (Str.split "."%char "ansible.eda"))
                 (marked_bases (Demo.listing "ansible.eda")))).
Proof.
  apply (find_collection_nested Demo.world "ansible.eda"
           "/usr/bin/ansible-galaxy" (Demo.listing "ansible.eda") empty_state);
    reflexivity.
Defined.

(** ** The store keeps its bound *)

Lemma removelast_incl {A} (l : list A) : incl (removelast l) l.
Proof.
  induction l as [|a l IH]; [apply incl_refl|].
  destruct l as [|b l]; [intros x []|].
  change (removelast (a :: b :: l)) with (a :: removelast (b :: l)).
  apply incl_cons; [left; reflexivity | apply incl_tl, IH].
Qed.

Lemma NoDup_removelast {A} (l : list A) : NoDup l -> NoDup (removelast l).
Proof.
  induction l as [|a l IH]; intros H; [constructor|].
  destruct l as [|b l]; [constructor|].
  change (removelast (a :: b :: l)) with (a :: removelast (b :: l)).
  inversion H as [|? ? Ha Hl]; subst. constructor; [|apply IH, Hl].
  intros Hin. apply Ha. apply (removelast_incl (b :: l)). exact Hin.
Qed.

Lemma keys_removelast c : keys (removelast c) = removelast (keys c).
Proof.
  induction c as [|a c IH]; [reflexivity|].
  destruct c as [|b c]; [reflexivity|].
  change (removelast (a :: b :: c)) with (a :: removelast (b :: c)).
  unfold keys in *. cbn [map] in *. rewrite IH. reflexivity.
Qed.

Lemma length_removelast {A} (l : list A) :
  l <> [] -> S (List.length (removelast l)) = List.length l.
Proof.
  induction l as [|a l IH]; [congruence|]. intros _.
  destruct l as [|b l]; [reflexivity|].
  change (removelast (a :: b :: l)) with (a :: removelast (b :: l)).
  cbn [List.length]. rewrite IH by discriminate. reflexivity.
Qed.

Lemma length_cache_remove n c v :
  cache_get n c = Some v -> S (List.length (cache_remove n c)) = List.length c.
Proof.
  induction c as [|[k w] c IH]; cbn; [discriminate|].
  destruct (String.eqb k n); [reflexivity|].
  intros H. cbn. rewrite IH by exact H. reflexivity.
Qed.

Lemma store_ok_step W n st :
  store_ok st -> store_ok (snd (find_collection W n st)).
Proof.
  intros [Hlen Hnd]. unfold find_collection, lru_cache.
  cbn [cache record_lookup].
  destruct (cache_get n (cache st)) as [v|] eqn:G.
  - cbn [snd]. unfold store_ok, set_cache, cache_touch. cbn [cache].
    destruct (keys_cache_remove_nodup n _ Hnd) as [N1 N2]. split.
    + cbn [List.length]. rewrite (length_cache_remove _ _ _ G). exact Hlen.
    + cbn. constructor; assumption.
  - pose proof (find_collection_wrapped_cache W n (record_lookup n st)) as Hw.
    destruct (find_collection_wrapped W n (record_lookup n st)) as [[v|e] st'];
      cbn [snd cache record_lookup] in *.
    + unfold store_ok, set_cache, cache_put. cbn [cache]. rewrite Hw.
      apply cache_get_none in G.
      destruct (Nat.leb_spec maxsize (List.length (cache st))) as [L|L]; split.
      * cbn [List.length].
        rewrite length_removelast; [exact Hlen|].
        intros E. rewrite E in L. unfold maxsize in L. cbn in L. lia.
      * cbn. constructor.
        -- intros Hin. apply G. rewrite keys_removelast in Hin.
           apply (removelast_incl _ _ Hin).
        -- rewrite keys_removelast. apply NoDup_removelast. exact Hnd.
      * cbn [List.length]. lia.
      * cbn. constructor; assumption.
    + unfold store_ok. rewrite Hw. split; assumption.
Qed.

(** X6: whatever is looked up, in whatever world, the store of the Locator
    never holds more than 128 entries and never holds a name twice. *)
Theorem store_ok_preserved calls st :
  store_ok st -> store_ok (locate_all calls st).
Proof.
  revert st. induction calls as [|[W n] calls IH]; intros st H; [exact H|].
  cbn [locate_all fold_left]. apply IH. apply store_ok_step. exact H.
Qed.

Lemma store_ok_preserved_witness :
  store_ok (locate_all Demo.many_calls (Demo.located Demo.crowded)).
Proof.
  apply (store_ok_preserved Demo.many_calls (Demo.located Demo.crowded)).
  split; [vm_compute; lia | vm_compute; repeat constructor; intros []; auto].
Defined.

(** ** [has_object] and [find_object] together *)

Lemma existsb_find {A} (p : A -> bool) (l : list A) :
  existsb p l = true <-> exists x, find p l = Some x.
Proof.
  induction l as [|a l IH]; cbn.
  - split; [discriminate | intros [x H]; discriminate].
  - destruct (p a); cbn; [|exact IH].
    split; [intros _; exists a; reflexivity | reflexivity].
Qed.

(** X8: once the Locator has answered, [has_object] raises nothing: it is
    [False] for an absent collection and otherwise [True] exactly when one
    of the candidate paths exists. *)
Theorem has_object_never_raises W collection name object_types extensions r st :
  fst (find_collection W collection st) = Return r ->
  fst (has_object W collection name object_types extensions st) =
  Return
    match r with
    | None => false
    | Some dir =>
        existsb (path_exists W)
          (candidates dir name (iterate object_types) (normalize extensions))
    end.
Proof. apply has_object_spec. Qed.

Lemma has_object_never_raises_witness :
  fst (has_object Demo.world "ansible.eda" "missing" (PList EDA_PLAYBOOKS_PATHS)
         (PList EDA_YAML_EXTENSIONS) empty_state)
  = Return
      (existsb (path_exists Demo.world)
         (candidates (Demo.base +++ "/ansible/eda") "missing"
            (iterate (PList EDA_PLAYBOOKS_PATHS))
            (normalize (PList EDA_YAML_EXTENSIONS)))).
Proof.
  apply (has_object_never_raises Demo.world "ansible.eda" "missing"
           (PList EDA_PLAYBOOKS_PATHS) (PList EDA_YAML_EXTENSIONS)
           (Some (Demo.base +++ "/ansible/eda")) empty_state).
  reflexivity.
Defined.

(** X9: asked the same question in the same state, [has_object] answers
    [True] exactly when [find_object] returns a path. *)
Theorem has_object_iff_find_object
    W collection name object_types extensions r st :
  fst (find_collection W collection st) = Return r ->
  fst (has_object W collection name object_types extensions st) = Return true
  <-> exists location,
        fst (find_object W collection name object_types extensions st)
        = Return (PyPath location).
Proof.
  intros H. rewrite (has_object_spec _ _ _ _ _ r) by exact H.
  destruct r as [dir|].
  - rewrite (find_object_spec _ _ _ _ _ dir) by exact H.
    split.
    + intros E. inversion E as [E']. apply existsb_find in E'.
      destruct E' as [x Hx]. exists x. rewrite Hx. reflexivity.
    + intros [loc Hloc].
      destruct (find (path_exists W)
                  (candidates dir name (iterate object_types)
                     (normalize extensions))) as [p|] eqn:F; [|discriminate].
      f_equal. apply existsb_find. exists p. exact F.
  - rewrite find_object_absent by exact H. cbn [fst].
    split; [discriminate | intros [loc Hloc]; discriminate].
Qed.

Lemma has_object_iff_find_object_witness :
  fst (has_object Demo.world "ansible.eda" "range" (PList EDA_SOURCE_PATHS)
         (PStr ".py") empty_state) = Return true
  <-> exists location,
        fst (find_object Demo.world "ansible.eda" "range" (PList EDA_SOURCE_PATHS)
               (PStr ".py") empty_state)
        = Return (PyPath location).
Proof.
  apply (has_object_iff_find_object Demo.world "ansible.eda" "range"
           (PList EDA_SOURCE_PATHS) (PStr ".py")
           (Some (Demo.base +++ "/ansible/eda")) empty_state).
  reflexivity.
Defined.

(** ** The paths [find_object] builds *)

Lemma join_absolute dir object_type name :
  Str.startswith name Posix.sep = true ->
  Posix.join dir [object_type; name] = name.
Proof.
  intros H. unfold Posix.join. cbn [fold_left].
  unfold Posix.join_step at 1. rewrite H. reflexivity.
Qed.

Lemma join_inner dir object_type name :
  open_dir dir = true -> inner_part object_type = true ->
  Str.startswith name Posix.sep = false ->
  Posix.join dir [object_type; name]
  = dir +++ "/" +++ object_type +++ "/" +++ name.
Proof.
  unfold open_dir, inner_part. intros Hdir Hot Hname.
  apply andb_prop in Hdir. destruct Hdir as [Hd1 Hd2].
  apply andb_prop in Hot. destruct Hot as [Hot Ho3].
  apply andb_prop in Hot. destruct Hot as [Ho1 Ho2].
  apply negb_true_iff in Hd1, Hd2, Ho1, Ho2, Ho3.
  unfold Posix.join. cbn [fold_left]. unfold Posix.join_step.
  rewrite Ho2, Hd1, Hd2, Hname. cbn [orb].
  assert (Hne : String.eqb (dir +++ Posix.sep +++ object_type) "" = false).
  { apply String.eqb_neq. apply append_nonempty. discriminate. }
  assert (Hend : Str.endswith_char (dir +++ Posix.sep +++ object_type) "/"
                 = false).
  { rewrite endswith_char_app by discriminate.
    apply String.eqb_neq in Ho1.
    destruct object_type; [congruence | exact Ho3]. }
  rewrite Hne, Hend. cbn [orb]. unfold Posix.sep.
  rewrite !append_assoc. reflexivity.
Qed.

(** X10: a resource name that starts with the separator is probed as it is:
    [os.path.join] drops the collection directory and the sub-path in front
    of an absolute name, so [find_object] returns the name with the first
    extension under which it exists, wherever that lies. *)
Theorem find_object_absolute_name
    W collection name first others extensions dir st pre e post :
  fst (find_collection W collection st) = Return (Some dir) ->
  Str.startswith name Posix.sep = true ->
  extensions = pre ++ e :: post ->
  Forall (fun x => path_exists W (name +++ x) = false) pre ->
  path_exists W (name +++ e) = true ->
  fst (find_object W collection name (PList (first :: others))
         (PList extensions) st)
  = Return (PyPath (name +++ e)).
Proof.
  intros Hdir Habs Hext Hpre He.
  rewrite (find_object_spec _ _ _ _ _ dir) by exact Hdir. cbn [iterate normalize].
  rewrite candidates_cons, find_app.
  rewrite (map_ext _ (fun x => name +++ x))
    by (intros x; rewrite join_absolute by exact Habs; reflexivity).
  subst extensions. rewrite map_app. cbn [map].
  rewrite find_first; [reflexivity | | exact He].
  apply Forall_forall. intros p Hp. apply in_map_iff in Hp.
  destruct Hp as (x & <- & Hx). rewrite Forall_forall in Hpre. auto.
Qed.

Lemma find_object_absolute_name_witness :
  fst (find_object Demo.crowded "ansible.eda" "/tmp/rules"
         (PList [EDA_PATH_PREFIX +++ "/rulebooks"; "rulebooks"])
         (PList [".yml"]) empty_state)
  = Return (PyPath ("/tmp/rules" +++ ".yml")).
Proof.
  apply (find_object_absolute_name Demo.crowded "ansible.eda" "/tmp/rules"
           (EDA_PATH_PREFIX +++ "/rulebooks") ["rulebooks"] [".yml"]
           (Demo.base +++ "/ansible/eda") empty_state [] ".yml" []).
  - reflexivity.
  - reflexivity.
  - reflexivity.
  - constructor.
  - reflexivity.
Defined.

(** X11: for a collection directory without a trailing separator, sub-paths
    that are relative and have none either, and a resource name that is not
    absolute, every path [find_object] returns reads
    [directory/sub-path/name] followed by the extension. *)
Theorem find_object_path_layout
    W collection name object_types extensions dir st location :
  fst (find_collection W collection st) = Return (Some dir) ->
  open_dir dir = true ->
  forallb inner_part object_types = true ->
  Str.startswith name Posix.sep = false ->
  fst (find_object W collection name (PList object_types) extensions st)
  = Return (PyPath location) ->
  exists object_type extension,
    In object_type object_types
    /\ In extension (normalize extensions)
    /\ location = dir +++ "/" +++ object_type +++ "/" +++ name +++ extension.
Proof.
  intros Hdir Hopen Hots Hname H.
  rewrite (find_object_spec _ _ _ _ _ dir) in H by exact Hdir.
  cbn [iterate] in H.
  destruct (find (path_exists W)
              (candidates dir name object_types (normalize extensions)))
    as [p|] eqn:F; [|discriminate].
  inversion H; subst p. apply find_some in F. destruct F as [Hin _].
  unfold candidates in Hin. apply in_flat_map in Hin.
  destruct Hin as (ot & Hot & Hin). apply in_map_iff in Hin.
  destruct Hin as (ext & Heq & Hext).
  exists ot, ext. split; [exact Hot|]. split; [exact Hext|].
  rewrite forallb_forall in Hots.
  rewrite join_inner in Heq by auto.
  rewrite <- Heq, !append_assoc. reflexivity.
Qed.

Lemma find_object_path_layout_witness :
  exists object_type extension,
    In object_type EDA_SOURCE_PATHS
    /\ In extension (normalize (PStr ".py"))
    /\ Demo.base
       +++ "/ansible/eda/extensions/eda/plugins/event_source/range.py"
       = (Demo.base +++ "/ansible/eda") +++ "/" +++ object_type +++ "/"
         +++ "range" +++ extension.
Proof.
  apply (find_object_path_layout Demo.world "ansible.eda" "range"
           EDA_SOURCE_PATHS (PStr ".py") (Demo.base +++ "/ansible/eda")
           empty_state); reflexivity.
Defined.

(** ** What the searches leave behind *)

Lemma quiet_refl st : quiet st st.
Proof. repeat split. Qed.

Lemma quiet_trans a b c : quiet a b -> quiet b c -> quiet a c.
Proof. unfold quiet. intuition congruence. Qed.

Lemma quiet_record_lookup name st : quiet st (record_lookup name st).
Proof. repeat split. Qed.

Lemma find_object_extensions_quiet W collection name object_type dir :
  forall extensions location st rest,
    cache st = (collection, Some dir) :: rest ->
    quiet st
      (snd (find_object_extensions W collection name object_type extensions
              location st)).
Proof.
  induction extensions as [|e extensions IH]; intros location st rest Hc.
  - apply quiet_refl.
  - cbn [find_object_extensions]. unfold bind at 1.
    rewrite (find_collection_hit W _ _ _ _ Hc). unfold bind at 1. cbn.
    destruct (path_exists W
                (Posix.join_step (Posix.join_step dir object_type) name +++ e)).
    + apply quiet_record_lookup.
    + eapply quiet_trans; [apply quiet_record_lookup|].
      apply (IH _ (record_lookup collection st) rest). exact Hc.
Qed.

Lemma find_object_types_quiet W collection name dir extensions :
  forall object_types l st rest,
    cache st = (collection, Some dir) :: rest ->
    quiet st
      (snd (find_object_types W collection name object_types extensions l st)).
Proof.
  induction object_types as [|ot object_types IH]; intros l st rest Hc.
  - apply quiet_refl.
  - cbn [find_object_types]. unfold bind.
    pose proof (find_object_extensions_quiet W collection name ot dir extensions
                  (location_var l) st rest Hc) as Hq.
    destruct (find_object_extensions W collection name ot extensions
                (location_var l) st) as [[[loc|loc]|e] st1]; cbn [snd] in *.
    + exact Hq.
    + eapply quiet_trans; [exact Hq|].
      apply (IH _ st1 rest). destruct Hq as [Hq _]. congruence.
    + exact Hq.
Qed.

Lemma find_object_quiet W collection name object_types extensions r st :
  fst (find_collection W collection st) = Return r ->
  quiet (snd (find_collection W collection st))
    (snd (find_object W collection name object_types extensions st)).
Proof.
  intros H. unfold find_object, bind.
  destruct (find_collection W collection st) as [[r0|e] st1] eqn:E;
    cbn in H; inversion H; subst r0. cbn [snd].
  destruct r as [dir|]; [|apply quiet_refl].
  apply find_collection_stores in E. destruct E as [rest Hc].
  pose proof (find_object_types_quiet W collection name dir
                (normalize extensions) (iterate object_types)
                {| object_type_var := None; location_var := None |} st1 rest Hc)
    as Hq.
  destruct (find_object_types W collection name (iterate object_types)
              (normalize extensions)
              {| object_type_var := None; location_var := None |} st1)
    as [[[loc|l]|e] st2]; exact Hq.
Qed.

(** ** [load_rulebook] on a rulebook that is there *)

Lemma candidate_nonempty dir name object_types extension p :
  extension <> "" ->
  In p (candidates dir name object_types [extension]) -> p <> "".
Proof.
  intros Hext Hin. unfold candidates in Hin. apply in_flat_map in Hin.
  destruct Hin as (ot & _ & Hin). cbn in Hin.
  destruct Hin as [<-|[]]. apply append_nonempty. exact Hext.
Qed.

Lemma load_rulebook_at W collection rulebook st location :
  fst (find_object W collection rulebook (PList RULEBOOK_PATHS) (PStr ".yml") st)
  = Return (PyPath location) ->
  location <> "" ->
  load_rulebook W collection rulebook st =
  match read_file W location with
  | None =>
      (Raise OSError,
       snd (find_object W collection rulebook (PList RULEBOOK_PATHS)
              (PStr ".yml") st))
  | Some raw_data =>
      (match safe_load W raw_data with
       | None => Raise YAMLError
       | Some doc => Return (has_vaulted_str W raw_data, doc)
       end,
       logged (Banner "collection" ("Loading rulebook from " +++ location))
         (snd (find_object W collection rulebook (PList RULEBOOK_PATHS)
                 (PStr ".yml") st)))
  end.
Proof.
  intros H Hne. unfold load_rulebook. unfold bind at 1.
  destruct (find_object W collection rulebook (PList RULEBOOK_PATHS)
              (PStr ".yml") st) as [o st2].
  cbn in H. subst o. cbn [snd].
  apply String.eqb_neq in Hne. rewrite Hne.
  destruct (read_file W location) as [raw|]; [|reflexivity].
  unfold bind, emit, logged.
  destruct (safe_load W raw); reflexivity.
Qed.

(** X12: when the collection is installed and [location] is the first
    candidate rulebook path that exists, is readable and decodes,
    [load_rulebook] returns the vault flag of the bytes read together with
    the decoded document, and leaves exactly one banner naming that path on
    top of whatever locating the collection logged, with no further
    subprocess. *)
Theorem load_rulebook_found W collection rulebook st dir location raw doc :
  fst (find_collection W collection st) = Return (Some dir) ->
  find (path_exists W) (candidates dir rulebook RULEBOOK_PATHS [".yml"])
  = Some location ->
  read_file W location = Some raw ->
  safe_load W raw = Some doc ->
  fst (load_rulebook W collection rulebook st)
  = Return (has_vaulted_str W raw, doc)
  /\ log (snd (load_rulebook W collection rulebook st))
     = Banner "collection" ("Loading rulebook from " +++ location)
       :: log (snd (find_collection W collection st))
  /\ lister_calls (snd (load_rulebook W collection rulebook st))
     = lister_calls (snd (find_collection W collection st)).
Proof.
  intros Hdir Hfind Hread Hload.
  assert (Hobj : fst (find_object W collection rulebook (PList RULEBOOK_PATHS)
                        (PStr ".yml") st) = Return (PyPath location)).
  { rewrite (find_object_spec _ _ _ _ _ dir) by exact Hdir.
    cbn [iterate normalize]. rewrite Hfind. reflexivity. }
  assert (Hne : location <> "").
  { apply find_some in Hfind. destruct Hfind as [Hin _].
    apply (candidate_nonempty _ _ _ ".yml" _) in Hin;
      [exact Hin | discriminate]. }
  rewrite (load_rulebook_at _ _ _ _ _ Hobj Hne), Hread, Hload.
  destruct (find_object_quiet W collection rulebook (PList RULEBOOK_PATHS)
              (PStr ".yml") _ st Hdir) as (_ & Hl & Hg).
  cbn [fst snd logged log lister_calls]. rewrite Hl, Hg. repeat split.
Qed.

Lemma load_rulebook_found_witness :
  fst (load_rulebook Demo.world "ansible.eda" "hello_events" empty_state)
  = Return (has_vaulted_str Demo.world "[]", YSeq [])
  /\ log (snd (load_rulebook Demo.world "ansible.eda" "hello_events" empty_state))
     = Banner "collection"
         ("Loading rulebook from "
          +++ (Demo.base
               +++ "/ansible/eda/extensions/eda/rulebooks/hello_events.yml"))
       :: log (snd (find_collection Demo.world "ansible.eda" empty_state))
  /\ lister_calls
       (snd (load_rulebook Demo.world "ansible.eda" "hello_events" empty_state))
     = lister_calls (snd (find_collection Demo.world "ansible.eda" empty_state)).
Proof.
  apply (load_rulebook_found Demo.world "ansible.eda" "hello_events" empty_state
           (Demo.base +++ "/ansible/eda")); reflexivity.
Defined.

(** X13: [has_rulebook] and [load_rulebook] agree: where [has_rulebook]
    answers [True], [load_rulebook] raises neither not-found error; it
    opens an existing file, and fails only if that file cannot be read or
    decoded. *)
Theorem has_rulebook_then_load W collection rulebook st :
  fst (has_rulebook W collection rulebook st) = Return true ->
  exists location,
    path_exists W location = true
    /\ fst (load_rulebook W collection rulebook st) =
       match read_file W location with
       | None => Raise OSError
       | Some raw =>
           match safe_load W raw with
           | None => Raise YAMLError
           | Some doc => Return (has_vaulted_str W raw, doc)
           end
       end.
Proof.
  intros H. unfold has_rulebook in H.
  destruct (find_collection W collection st) as [[r|e] st1] eqn:E.
  - assert (Hr : fst (find_collection W collection st) = Return r)
      by (rewrite E; reflexivity).
    rewrite (has_object_spec _ _ _ _ _ r _ Hr) in H.
    destruct r as [dir|]; [|discriminate].
    cbn [iterate normalize] in H.
    assert (Hex : existsb (path_exists W)
                    (candidates dir rulebook RULEBOOK_PATHS [".yml"]) = true)
      by congruence.
    apply existsb_find in Hex. destruct Hex as [loc F].
    assert (Hobj : fst (find_object W collection rulebook (PList RULEBOOK_PATHS)
                          (PStr ".yml") st) = Return (PyPath loc)).
    { rewrite (find_object_spec _ _ _ _ _ dir) by exact Hr.
      cbn [iterate normalize]. rewrite F. reflexivity. }
    apply find_some in F. destruct F as [Hin Hpe].
    apply (candidate_nonempty _ _ _ ".yml" _) in Hin; [|discriminate].
    exists loc. split; [exact Hpe|].
    rewrite (load_rulebook_at _ _ _ _ _ Hobj Hin).
    destruct (read_file W loc); reflexivity.
  - unfold has_object, bind in H. rewrite E in H. discriminate.
Qed.

Lemma has_rulebook_then_load_witness :
  exists location,
    path_exists Demo.world location = true
    /\ fst (load_rulebook Demo.world "ansible.eda" "hello_events" empty_state) =
       match read_file Demo.world location with
       | None => Raise OSError
       | Some raw =>
           match safe_load Demo.world raw with
           | None => Raise YAMLError
           | Some doc => Return (has_vaulted_str Demo.world raw, doc)
           end
       end.
Proof.
  apply (has_rulebook_then_load Demo.world "ansible.eda" "hello_events"
           empty_state).
  reflexivity.
Defined.

(** ** [is_deprecated] on a routed plugin *)

Lemma split_long name :
  Str.occurs "." name = true ->
  Nat.ltb (List.length (Str.split "."%char name)) 2 = false.
Proof.
  intros O. apply Nat.ltb_ge. unfold Str.split.
  destruct (Str.rsplit_once "." name) as [[h t]|] eqn:E.
  - rewrite (split_from_last _ _ _ _ _ E), length_app. cbn [List.length].
    pose proof (split_from_nonempty "." "" h) as Hne.
    destruct (Str.split_from "." "" h); [congruence | cbn; lia].
  - apply rsplit_once_none in E. congruence.
Qed.

Ltac crunch_lookup :=
  repeat
    (cbn -[routing_key Py.truthy Py.lookup String.append Str.contains existsb
           Posix.join];
     match goal with
     | |- context [match read_file ?w ?p with _ => _ end] =>
         destruct (read_file w p) eqn:?
     | |- context [match safe_load ?w ?t with _ => _ end] =>
         destruct (safe_load w t) eqn:?
     | |- context [match Py.lookup ?k ?m with _ => _ end] =>
         destruct (Py.lookup k m) eqn:?
     | |- context [match ?v with YNull => _ | _ => _ end] => destruct v
     | |- context [if ?b then _ else _] => destruct b eqn:?
     end).

(** X15: for a name with a dot, [is_deprecated] makes one call of
    [find_collection], for the owning collection, and beyond that call
    changes the state in one case only: it reports a deprecation exactly
    when it has logged one warning. *)
Theorem is_deprecated_effects W name obj_type st :
  Str.occurs "." name = true ->
  (exists target msg,
     is_deprecated W name obj_type st
     = (Return (true, target),
        logged (LogWarning msg) (snd (find_collection W (owner name) st))))
  \/ ((forall target,
         fst (is_deprecated W name obj_type st) <> Return (true, target))
      /\ snd (is_deprecated W name obj_type st)
         = snd (find_collection W (owner name) st)).
Proof.
  intros O.
  destruct (is_deprecated W name obj_type st) as [o st2] eqn:E. cbn [fst snd].
  revert E. unfold is_deprecated. rewrite (split_long _ O). fold (owner name).
  unfold bind at 1.
  destruct (find_collection W (owner name) st) as [[[dir|]|e] st1]; cbn [snd];
    try (intros E; inversion E; subst;
         right; split; [intros ? ?; discriminate | reflexivity]).
  unfold bind, load_yaml, Py.contains, Py.getitem, Py.get, Py.iadd_str,
    emit, ret, raise, not_deprecated.
  crunch_lookup;
    intros E; inversion E; subst;
    first [ right; split; [intros ? ?; discriminate | reflexivity]
          | left; eexists; eexists; reflexivity ].
Qed.

Lemma is_deprecated_effects_witness :
  (exists target msg,
     is_deprecated Demo.world "ansible.eda.json_filter" "event_filter" empty_state
     = (Return (true, target),
        logged (LogWarning msg)
          (snd (find_collection Demo.world (owner "ansible.eda.json_filter")
                  empty_state))))
  \/ ((forall target,
         fst (is_deprecated Demo.world "ansible.eda.json_filter" "event_filter"
                empty_state)
         <> Return (true, target))
      /\ snd (is_deprecated Demo.world "ansible.eda.json_filter" "event_filter"
                empty_state)
         = snd (find_collection Demo.world (owner "ansible.eda.json_filter")
                  empty_state)).
Proof.
  apply (is_deprecated_effects Demo.world "ansible.eda.json_filter"
           "event_filter" empty_state).
  reflexivity.
Defined.

(** X14: for a name with a dot whose collection is installed, when
    [meta/runtime.yml] routes the name under the given kind to a mapping
    entry with a [redirect], and the [deprecation] of that entry is absent
    or a mapping whose [warning_text] is absent or a string and whose
    [removal_version] is not a mapping, [is_deprecated] returns [True] with
    the redirect target and logs one warning: the [warning_text] (empty when
    absent), followed by the removal sentence when [removal_version] is
    truthy. *)
Theorem is_deprecated_redirect
    W name obj_type st dir item target details text :
  Str.occurs "." name = true ->
  fst (find_collection W (owner name) st) = Return (Some dir) ->
  routing_entry W dir name obj_type = Some item ->
  Py.lookup "redirect" item = Some target ->
  get_or "deprecation" (YMap []) item = YMap details ->
  get_or "warning_text" (YStr "") details = YStr text ->
  not_mapping (get_or "removal_version" YNull details) = true ->
  is_deprecated W name obj_type st
  = (Return (true, target),
     logged
       (LogWarning
          (YStr (if Py.truthy (get_or "removal_version" YNull details)
                 then text +++ " It will be removed in version "
                      +++ py_str W (get_or "removal_version" YNull details)
                      +++ "."
                 else text)))
       (snd (find_collection W (owner name) st))).
Proof.
  intros O Hdir Hentry Hred Hdep Htext _.
  unfold is_deprecated. rewrite (split_long _ O). fold (owner name).
  unfold bind at 1.
  destruct (find_collection W (owner name) st) as [[r|e] st1];
    cbn in Hdir; inversion Hdir; subst r. cbn [snd].
  fold (runtime_path dir). unfold routing_entry in Hentry.
  destruct (path_exists W (runtime_path dir)); [|discriminate].
  destruct (read_file W (runtime_path dir)) as [text0|] eqn:Hrd; [|discriminate].
  destruct (safe_load W text0) as [[| | | | |data]|] eqn:Hsl; try discriminate.
  destruct (Py.lookup "plugin_routing" data) as [[| | | | |routing]|] eqn:H1;
    try discriminate.
  destruct (Py.lookup (routing_key obj_type) routing) as [[| | | | |objs]|] eqn:H2;
    try discriminate.
  destruct (Py.lookup name objs) as [[| | | | |item']|] eqn:H3;
    try discriminate.
  inversion Hentry; subst item'. clear Hentry.
  unfold bind, load_yaml, Py.contains, Py.getitem, Py.get, emit, ret, logged.
  rewrite Hrd, Hsl, H1, H2, H3, Hred.
  fold (get_or "deprecation" (YMap []) item). rewrite Hdep.
  fold (get_or "warning_text" (YStr "") details). rewrite Htext.
  fold (get_or "removal_version" YNull details).
  destruct (Py.truthy (get_or "removal_version" YNull details)); reflexivity.
Qed.

Lemma is_deprecated_redirect_witness :
  is_deprecated Demo.world "ansible.eda.json_filter" "event_filter" empty_state
  = (Return (true, YStr "eda.builtin.json_filter"),
     logged
       (LogWarning
          (YStr "Use eda.builtin.json_filter It will be removed in version 3.0.0."))
       (snd (find_collection Demo.world (owner "ansible.eda.json_filter")
               empty_state))).
Proof.
  apply (is_deprecated_redirect Demo.world "ansible.eda.json_filter"
           "event_filter" empty_state (Demo.base +++ "/ansible/eda")
           Demo.json_filter_entry (YStr "eda.builtin.json_filter")
           [("warning_text", YStr "Use eda.builtin.json_filter");
            ("removal_version", YStr "3.0.0")]
           "Use eda.builtin.json_filter"); reflexivity.
Defined.

(** X16: a [meta/runtime.yml] that decodes to a scalar ([None] for an empty
    file, a boolean, a number) makes [is_deprecated] raise a [TypeError] at
    its first membership test. *)
Theorem is_deprecated_scalar_document W name obj_type st dir text data :
  Str.occurs "." name = true ->
  fst (find_collection W (owner name) st) = Return (Some dir) ->
  path_exists W (runtime_path dir) = true ->
  read_file W (runtime_path dir) = Some text ->
  safe_load W text = Some data ->
  match data with YNull | YBool _ | YInt _ => True | _ => False end ->
  fst (is_deprecated W name obj_type st) = Raise TypeError.
Proof.
  intros O Hdir Hpe Hrd Hsl Hscalar.
  unfold is_deprecated. rewrite (split_long _ O). fold (owner name).
  unfold bind at 1.
  destruct (find_collection W (owner name) st) as [[r|e] st1];
    cbn in Hdir; inversion Hdir; subst r.
  fold (runtime_path dir). rewrite Hpe. unfold bind at 1, load_yaml.
  rewrite Hrd, Hsl. unfold ret, bind.
  destruct data; try contradiction; reflexivity.
Qed.

Lemma is_deprecated_scalar_document_witness :
  fst (is_deprecated Demo.blank_runtime "ansible.eda.range" "event_source"
         empty_state)
  = Raise TypeError.
Proof.
  apply (is_deprecated_scalar_document Demo.blank_runtime "ansible.eda.range"
           "event_source" empty_state (Demo.base +++ "/ansible/eda") "" YNull);
    first [reflexivity | exact I].
Defined.

(** ** Claim on the listing read by [find_collection] *)









